(** * xclim: run-length indices, day-of-year percentiles and conversions

    A shallow embedding of [xclim/indices.py] and
    [xclim/indices/_conversion.py], restricted to one spatial point: every
    array is a one-dimensional sequence along the [time] dimension.

    Layout: the embedding of [indices.py] (module [Indices]), the embedding
    of [_conversion.py] (module [Conversion]), then the properties. *)

From Stdlib Require Import String.
From Stdlib Require Import List ZArith QArith Qround Bool Arith Lia.
From Stdlib Require Import Permutation Sorted.
From Stdlib Require Import Reals Lra.
From Stdlib Require Lqa.
Import ListNotations.

(** ** Python-level results *)

(** The exceptions the embedded code can surface. *)
Inductive exn : Type :=
| ValueError (msg : string)
| AttributeError (msg : string)
| IndexError (msg : string)
| UnitsError (msg : string).

(** A Python call either returns a value or raises. *)
Inductive result (A : Type) : Type :=
| Ok (a : A)
| Raise (e : exn).
Arguments Ok {A} a.
Arguments Raise {A} e.

Definition bind {A B : Type} (r : result A) (k : A -> result B) : result B :=
  match r with
  | Ok a => k a
  | Raise e => Raise e
  end.

Notation "x <- r ;; k" := (bind r (fun x => k))
  (at level 61, r at next level, right associativity).

(** ** [xclim/indices.py] *)

Module Indices.

Local Open Scope Q_scope.

(** A float64 array element; [None] is NaN, the missing-value marker. *)
Abbreviation float := (option Q).

(** A float64 element that holds a whole number (index arithmetic of [CFD]);
    [None] is NaN. *)
Abbreviation findex := (option Z).

(** A one-dimensional [DataArray] along [time]: each element carries its
    timestamp (a day ordinal). *)
Definition DataArray (A : Type) : Type := list (Z * A).

Definition values {A : Type} (a : DataArray A) : list A := map snd a.
Definition times {A : Type} (a : DataArray A) : list Z := map fst a.

(** Pointwise operation on the data, coordinates kept. *)
Definition amap {A B : Type} (f : A -> B) (a : DataArray A) : DataArray B :=
  map (fun tx => (fst tx, f (snd tx))) a.

(** [K2C = 273.15] *)
Definition K2C : Q := 27315 # 100.

Definition Qlt_bool (x y : Q) : bool := negb (Qle_bool y x).

(** [x > c] and [x < c] on a float element: a comparison with NaN is False. *)
Definition gt (x : float) (c : Q) : bool :=
  match x with Some v => Qlt_bool c v | None => false end.
Definition lt (x : float) (c : Q) : bool :=
  match x with Some v => Qlt_bool v c | None => false end.

(** *** Resampling

    [resample(time=freq)] cuts the timeline into periods.  The frequency rule
    is given by the period label of each timestamp; the elements of one
    period are consecutive on the time axis.  Listed are the periods that
    hold a day.  On a series of consecutive days these are all the periods
    there are.  Where days are missing xarray also lists the periods without
    any day, with NaN for their statistic, and on a series without any day
    it raises [IndexError], as [resample_groups] has it for the indices
    whose outcome is a [result]: the statements that say something of every
    period, or that a call returns, are made for series of consecutive
    days. *)
Definition Freq : Type := Z -> Z.

Fixpoint resample {A : Type} (freq : Freq) (a : DataArray A)
  : list (Z * DataArray A) :=
  match a with
  | [] => []
  | (t, x) :: a' =>
      match resample freq a' with
      | (p, g) :: gs =>
          if Z.eqb (freq t) p then (p, (t, x) :: g) :: gs
          else (freq t, [(t, x)]) :: (p, g) :: gs
      | [] => [(freq t, [(t, x)])]
      end
  end.

(** [resample(time=freq)] with its refusal of a series without any day. *)
Definition resample_groups {A : Type} (freq : Freq) (a : DataArray A)
  : result (list (Z * DataArray A)) :=
  match a with
  | [] => Raise (IndexError
                   "index 0 is out of bounds for axis 0 with size 0")
  | _ :: _ => Ok (resample freq a)
  end.

(** *** [CFD] *)

(** [np.arange(n)] *)
Definition arange (n : nat) : list Z := map Z.of_nat (seq 0 n).

(** [ind.where(cond)]: the value where [cond] holds, NaN elsewhere. *)
Definition where_nan (v : Z) (cond : bool) : findex :=
  if cond then Some v else None.

(** [bfill(dim='time')]: a NaN takes the following valid value; trailing NaNs
    stay. *)
Fixpoint bfill (d : list findex) : list findex :=
  match d with
  | [] => []
  | Some v :: d' => Some v :: bfill d'
  | None :: d' =>
      match bfill d' with
      | [] => [None]
      | nxt :: rest => nxt :: nxt :: rest
      end
  end.

(** Float subtraction on whole-number elements, NaN-propagating. *)
Definition fsub (x y : findex) : findex :=
  match x, y with
  | Some a, Some b => Some (a - b)%Z
  | _, _ => None
  end.

(** [diff(dim='time')]: element [k] is [b[k+1] - b[k]], labelled with the
    later timestamp. *)
Fixpoint diff (b : list findex) : list findex :=
  match b with
  | x :: ((y :: _) as b') => fsub y x :: diff b'
  | _ => []
  end.

(** [max] with NaNs skipped; NaN when nothing is left. *)
Definition fmax2 (x y : findex) : findex :=
  match x, y with
  | Some a, Some b => Some (Z.max a b)
  | Some a, None => Some a
  | None, y' => y'
  end.

Definition nanmax (l : list findex) : findex := fold_right fmax2 None l.

(** [CFD(tasmin, freq)].  A series of fewer than two days leaves no
    difference, and resampling nothing raises: the statements about [CFD]
    are made for series of at least two days. *)
Definition CFD (tasmin : DataArray float) (freq : Freq)
  : list (Z * findex) :=
  let i := arange (length tasmin) in
  let ind := i in
  let d := map (fun iv => where_nan (fst iv) (gt (snd iv) K2C))
               (combine ind (values tasmin)) in
  let b := bfill d in
  let d := map (fun v => fsub v (Some 1%Z)) (diff b) in
  let labelled : DataArray findex := combine (tl (times tasmin)) d in
  map (fun pg => (fst pg, nanmax (values (snd pg)))) (resample freq labelled).

(** *** Run lengths ([xclim/run_length.py], which is not among the sources) *)

(** Modelled from the spec: a run of section 3, a maximal stretch of [True]
    with its start index and its length; [run_length.py] is missing. *)
Record Run : Type := mkRun { run_start : nat; run_len : nat }.

(** Modelled from the spec: the left-to-right scan of section 4.1 (the
    RunLengthAnalyzer of the missing [run_length.py]), which carries the run
    that is open at position [pos] and emits it when it ends. *)
Fixpoint scan (pos : nat) (cur : option Run) (xs : list bool) : list Run :=
  match xs with
  | [] => match cur with Some r => [r] | None => [] end
  | true :: xs' =>
      let r := match cur with
               | Some r => mkRun (run_start r) (S (run_len r))
               | None => mkRun pos 1
               end in
      scan (S pos) (Some r) xs'
  | false :: xs' =>
      match cur with
      | Some r => r :: scan (S pos) None xs'
      | None => scan (S pos) None xs'
      end
  end.

(** Modelled from the spec: the ordered runs of a boolean sequence, section
    4.1; empty for an empty or all-[False] input. *)
Definition runs (xs : list bool) : list Run := scan 0 None xs.

(** Modelled from the spec: [rl.longest_run] of the missing [run_length.py],
    section 4.2: the length of the run with maximum length, or [0] if no
    runs exist. *)
Definition longest_run (xs : list bool) : nat :=
  fold_right Nat.max 0%nat (map run_len (runs xs)).

(** Modelled from the spec: [rl.windowed_run_count] of the missing
    [run_length.py], the [run_day_count(window)] of section 4.2: the sum of
    the lengths of the runs whose length is at least [window].  A window
    that is not positive is a contract violation (sections 4.2 and 7),
    rejected before anything is counted. *)
Definition windowed_run_count (xs : list bool) (window : Z) : result Z :=
  if (window <=? 0)%Z then Raise (ValueError "window must be at least 1")
  else
    Ok (fold_right Z.add 0%Z
          (map (fun r => Z.of_nat (run_len r))
               (filter (fun r => (window <=? Z.of_nat (run_len r))%Z)
                       (runs xs)))).

(** *** [CFD2] *)

(** [group.apply(func)]: [func] is called on every group and the results are
    concatenated along the period axis.  An exception of [func] is the
    exception of the call; a Python function that returns nothing yields
    [None], on which the concatenation raises. *)
Fixpoint group_apply {A B : Type} (func : DataArray A -> result (option B))
  (group : list (Z * DataArray A)) : result (list (Z * B)) :=
  match group with
  | [] => Ok []
  | (p, g) :: gs =>
      r <- func g ;;
      match r with
      | None => Raise (AttributeError "'NoneType' object has no attribute 'dims'")
      | Some v => rest <- group_apply func gs ;; Ok ((p, v) :: rest)
      end
  end.

(** [xr.apply_ufunc(f, x, input_core_dims=[['time']], vectorize=True)] at one
    spatial point: [f] on the values along [time]. *)
Definition apply_ufunc {A B : Type} (f : list A -> B) (x : DataArray A) : B :=
  f (values x).

Definition CFD2 (tasmin : DataArray float) (freq : Freq)
  : result (list (Z * nat)) :=
  let f := amap (fun x => lt x K2C) tasmin in
  group <- resample_groups freq f ;;
  let func := fun x => Ok (Some (apply_ufunc longest_run x)) in
  group_apply func group.

(** *** [HWI] and [CSI]

    The callback [func] calls [xr.apply_ufunc] and drops its value: it has
    no [return], so it yields Python's [None]. *)
Definition HWI (tasmax : DataArray float) (thresh : Q) (window : Z)
  (freq : Freq) : result (list (Z * Z)) :=
  let over := amap (fun x => gt x (K2C + thresh)) tasmax in
  group <- resample_groups freq over ;;
  let func := fun x : DataArray bool =>
    _ <- apply_ufunc (fun v => windowed_run_count v window) x ;;
    Ok (@None Z) in
  group_apply func group.

Definition CSI (tas : DataArray float) (thresh : Q) (window : Z)
  (freq : Freq) : result (list (Z * Z)) :=
  let over := amap (fun x => lt x (K2C + thresh)) tas in
  group <- resample_groups freq over ;;
  let func := fun x : DataArray bool =>
    _ <- apply_ufunc (fun v => windowed_run_count v window) x ;;
    Ok (@None Z) in
  group_apply func group.

(** *** [percentile_doy] *)

(** [arr.rolling(1, center=True, time=window)]: the constructor rejects a
    window that is not positive. *)
Definition rolling (arr : DataArray float) (window : Z)
  : result (DataArray float * nat) :=
  if (window <=? 0)%Z then Raise (ValueError "window must be > 0")
  else Ok (arr, Z.to_nat window).

(** The series padded with NaN on both sides, as a centred window needs
    it. *)
Definition pad (r : DataArray float * nat) : list float :=
  let '(arr, window) := r in
  let start := (window / 2)%nat in
  let stop := (window - 1 - start)%nat in
  repeat None start ++ values arr ++ repeat None stop.

(** The rows of the windows: row [t] holds the [window] elements around
    position [t]; past either end of the series the row is padded with
    NaN. *)
Definition rolling_window (r : DataArray float * nat)
  : DataArray (list float) :=
  let '(arr, window) := r in
  combine (times arr)
    (map (fun t => firstn window (skipn t (pad r))) (seq 0 (length arr))).

(** [.construct('window')] of a centred rolling object.  A window longer
    than the padded series is refused: this is the case of the series
    without any day. *)
Definition construct (r : DataArray float * nat)
  : result (DataArray (list float)) :=
  if (length (pad r) <? snd r)%nat
  then Raise (ValueError "`window` is too long.")
  else Ok (rolling_window r).

(** The distinct keys in increasing order, as [groupby] lists its groups. *)
Fixpoint insert_key (k : Z) (ks : list Z) : list Z :=
  match ks with
  | [] => [k]
  | k' :: ks' =>
      if (k <? k')%Z then k :: ks
      else if (k =? k')%Z then ks
      else k' :: insert_key k ks'
  end.

Definition unique_keys (l : list Z) : list Z :=
  fold_right insert_key [] l.

(** [rr.groupby('time.dayofyear')]: for each day of year present, the rows
    whose timestamp falls on it.  [dayofyear] is the calendar's accessor. *)
Definition groupby {A : Type} (dayofyear : Z -> Z) (a : DataArray A)
  : list (Z * DataArray A) :=
  map (fun doy => (doy, filter (fun tx => (dayofyear (fst tx) =? doy)%Z) a))
      (unique_keys (map dayofyear (times a))).

(** The pooled values of one group: every element of every row. *)
Definition pooled (ind : DataArray (list float)) : list float :=
  concat (values ind).

(** The values that are not NaN. *)
Fixpoint dropna (l : list float) : list Q :=
  match l with
  | [] => []
  | Some v :: l' => v :: dropna l'
  | None :: l' => dropna l'
  end.

Fixpoint insert_sorted (x : Q) (l : list Q) : list Q :=
  match l with
  | [] => [x]
  | y :: l' => if Qle_bool x y then x :: l else y :: insert_sorted x l'
  end.

Definition sort (l : list Q) : list Q := fold_right insert_sorted [] l.

(** [quantile(per, dim=('time', 'window'))], which is [np.nanpercentile] with
    linear interpolation: a quantile outside [0, 1] is refused, NaNs are
    skipped, and an all-NaN pool gives NaN. *)
Definition quantile (per : Q) (pool : list float) : result float :=
  if Qlt_bool per 0 || Qlt_bool 1 per
  then Raise (ValueError "Percentiles must be in the range [0, 100]")
  else
    let s := sort (dropna pool) in
    match s with
    | [] => Ok None
    | _ :: _ =>
        let h := per * inject_Z (Z.of_nat (length s - 1)) in
        let lo := Z.to_nat (Qfloor h) in
        let hi := Nat.min (S lo) (length s - 1) in
        let a := nth lo s 0 in
        let b := nth hi s 0 in
        Ok (Some (a + (h - inject_Z (Z.of_nat lo)) * (b - a)))
    end.

(** [g.count(dim=('time', 'window'))]: per day of year, how many pooled
    values are not NaN. *)
Definition count (g : list (Z * DataArray (list float))) : DataArray nat :=
  map (fun kg => (fst kg, length (dropna (pooled (snd kg))))) g.

(** [xr.full_like(c, np.nan).astype(float)] *)
Definition full_like_nan {A : Type} (c : DataArray A) : DataArray float :=
  amap (fun _ => None) c.

(** [p.loc[{'dayofyear': doy}] = v] *)
Definition loc_set (p : DataArray float) (doy : Z) (v : float)
  : DataArray float :=
  map (fun kx => if (fst kx =? doy)%Z then (fst kx, v) else kx) p.

(** The body of the [for doy, ind in rr.groupby(...)] loop, run over the
    groups in order with the table [p] as state. *)
Fixpoint fill_table (per : Q) (g : list (Z * DataArray (list float)))
  (p : DataArray float) : result (DataArray float) :=
  match g with
  | [] => Ok p
  | (doy, ind) :: g' =>
      q <- quantile per (pooled ind) ;;
      fill_table per g' (loc_set p doy q)
  end.

Definition percentile_doy (dayofyear : Z -> Z) (arr : DataArray float)
  (window : Z) (per : Q) : result (DataArray float) :=
  r <- rolling arr window ;;
  rr <- construct r ;;
  let g := groupby dayofyear rr in
  let c := count g in
  let p := full_like_nan c in
  fill_table per (groupby dayofyear rr) p.

End Indices.

(** ** [xclim/indices/_conversion.py]

    Arithmetic is that of the real numbers, extended by NaN for missing
    values; NaN propagates through every operation and compares False.
    Rounding and the infinities of float64 are outside the model. *)

Module Conversion.

Local Open Scope R_scope.

(** A float64 array element; [None] is NaN. *)
Abbreviation float := (option R).

(** A one-dimensional [xr.DataArray]: its data and its [units] attribute. *)
Record DataArray : Type := mkDA { data : list float; units : string }.

(** *** Element-wise numpy operations *)

Definition lift1 (f : R -> R) (x : float) : float :=
  match x with Some a => Some (f a) | None => None end.

Definition lift2 (f : R -> R -> R) (x y : float) : float :=
  match x, y with Some a, Some b => Some (f a b) | _, _ => None end.

Definition fadd : float -> float -> float := lift2 Rplus.
Definition fsub : float -> float -> float := lift2 Rminus.
Definition fmul : float -> float -> float := lift2 Rmult.
Definition fdiv : float -> float -> float := lift2 Rdiv.

Definition Rltb (a b : R) : bool := if Rlt_dec a b then true else false.
Definition Rleb (a b : R) : bool := if Rle_dec a b then true else false.

(** Comparisons: False as soon as one side is NaN. *)
Definition cmp (f : R -> R -> bool) (x y : float) : bool :=
  match x, y with Some a, Some b => f a b | _, _ => false end.

Definition flt : float -> float -> bool := cmp Rltb.
Definition fle : float -> float -> bool := cmp Rleb.
Definition fgt (x y : float) : bool := flt y x.
Definition fge (x y : float) : bool := fle y x.

(** [np.floor] *)
Definition floor (a : R) : Z := Int_part a.

(** [x % m] for a positive modulus: [x - floor(x / m) * m]. *)
Definition Rmod (a m : R) : R := a - IZR (floor (a / m)) * m.




Definition log10 (a : R) : R := ln a / ln 10.
Definition pow10 (a : R) : R := Rpower 10 a.

(** [np.clip(x, lo, hi)] *)
Definition clip (lo hi a : R) : R := Rmin (Rmax a lo) hi.

(** *** Array operations *)

Fixpoint map2 {A B C : Type} (f : A -> B -> C) (l : list A) (m : list B)
  : list C :=
  match l, m with
  | a :: l', b :: m' => f a b :: map2 f l' m'
  | _, _ => []
  end.

(** [xr.where(cond, x, y)] on aligned arrays. *)
Fixpoint where3 (cond : list bool) (x y : list float) : list float :=
  match cond, x, y with
  | c :: cond', a :: x', b :: y' =>
      (if c then a else b) :: where3 cond' x' y'
  | _, _, _ => []
  end.

(** [a.where(cond, other)]: [a] where [cond] holds, [other] elsewhere. *)
Definition where_ (a : list float) (cond : list bool) (other : float)
  : list float :=
  map2 (fun v (c : bool) => if c then v else other) a cond.

(** [a.where(cond, other)] with a replacement value given: the array and the
    condition are aligned with [join='exact'], which raises when their
    indexes differ.  An array of the model has its positions for an index,
    so the indexes are equal when the lengths are. *)
Definition where_other (a : list float) (cond : list bool) (other : float)
  : result (list float) :=
  if Nat.eqb (length a) (length cond) then Ok (where_ a cond other)
  else Raise (ValueError "indexes along dimension 'time' are not equal").

Section Units.

(** The units layer ([xclim.core.units]) is not among the sources:
    [convert_units_to] is taken as it comes, once for arrays and once for
    quantities written as strings, such as ["0.5 m/s"]. *)
Variable convert_units_to : DataArray -> string -> DataArray.
Variable convert_quantity : string -> string -> R.


(** *** [saturation_vapor_pressure] *)

Definition in_list (m : string) (l : list string) : bool :=
  existsb (String.eqb m) l.

Definition sonntag90_water (t : R) : R :=
  100 * exp (-6096.9385 / t + 16.635794 + -2.711193e-2 * t
             + 1.673952e-5 * t ^ 2 + 2.433502 * ln t).
Definition sonntag90_ice (t : R) : R :=
  100 * exp (-6024.5282 / t + 24.7219 + 1.0613868e-2 * t
             + -1.3198825e-5 * t ^ 2 + -0.49382577 * ln t).

Definition tetens30_water (t : R) : R :=
  610.78 * exp (17.269388 * (t - 273.16) / (t - 35.86)).
Definition tetens30_ice (t : R) : R :=
  610.78 * exp (21.8745584 * (t - 273.16) / (t - 7.66)).

Definition goffgratch46_water (t : R) : R :=
  let Tb := 373.16 in
  let eb := 101325 in
  eb * pow10 (-7.90298 * ((Tb / t) - 1)
              + 5.02808 * log10 (Tb / t)
              + -1.3817e-7 * (pow10 (11.344 * (1 - t / Tb)) - 1)
              + 8.1328e-3 * (pow10 (-3.49149 * ((Tb / t) - 1)) - 1)).
Definition goffgratch46_ice (t : R) : R :=
  let Tp := 273.16 in
  let ep := 611.73 in
  ep * pow10 (-9.09718 * ((Tp / t) - 1)
              + -3.56654 * log10 (Tp / t)
              + 0.876793 * (1 - t / Tp)).

Definition wmo08_water (t : R) : R :=
  611.2 * exp (17.62 * (t - 273.16) / (t - 30.04)).
Definition wmo08_ice (t : R) : R :=
  611.2 * exp (22.46 * (t - 273.16) / (t - 0.54)).

Definition saturation_vapor_pressure (tas : DataArray)
  (ice_thresh : option string) (method : string) : result DataArray :=
  let thresh :=
    match ice_thresh with
    | Some s => convert_quantity s "degK"
    | None => convert_quantity "0 K" "degK"
    end in
  let ref_is_water := map (fun t => fgt t (Some thresh)) (data tas) in
  let both (water ice : R -> R) :=
    where3 ref_is_water (map (lift1 water) (data tas))
           (map (lift1 ice) (data tas)) in
  e_sat <-
    (if in_list method ["sonntag90"; "SO90"]%string
     then Ok (both sonntag90_water sonntag90_ice)
     else if in_list method ["tetens30"; "TE30"]%string
     then Ok (both tetens30_water tetens30_ice)
     else if in_list method ["goffgratch46"; "GG46"]%string
     then Ok (both goffgratch46_water goffgratch46_ice)
     else if in_list method ["wmo08"; "WMO08"]%string
     then Ok (both wmo08_water wmo08_ice)
     else Raise (ValueError
       ("Method " ++ method ++
        " is not in ['sonntag90', 'tetens30', 'goffgratch46', 'wmo08']"))) ;;
  Ok (mkDA e_sat "Pa").

(** *** [relative_humidity] *)

(** A missing array handed to the units layer is refused there. *)
Definition convert_optional (a : option DataArray) (target : string)
  : result DataArray :=
  match a with
  | Some x => Ok (convert_units_to x target)
  | None => Raise (UnitsError "source is None")
  end.

Definition relative_humidity (tas : DataArray) (dtas huss ps : option DataArray)
  (ice_thresh : option string) (method : string)
  (invalid_values : option string) : result DataArray :=
  rh <-
    (if in_list method ["bohren98"; "BA90"]%string then
       match dtas with
       | None => Raise (ValueError
           "To use method 'bohren98' (BA98), dewpoint must be given.")
       | Some dtas =>
           let dtas := convert_units_to dtas "degK" in
           let tas := convert_units_to tas "degK" in
           let L := 2.501e6 in
           (* [Rw = (461.5,)]: a one-element tuple, which numpy broadcasts
              like the number it holds *)
           let Rw := 461.5 in
           Ok (map2 (fun t d =>
                  fmul (Some 100)
                    (lift1 exp
                       (fdiv (fmul (Some (- L)) (fsub t d))
                             (fmul (fmul (Some Rw) t) d))))
                  (data tas) (data dtas))
       end
     else
       match dtas with
       | Some dtas =>
           e_sat_dt <- saturation_vapor_pressure dtas ice_thresh method ;;
           e_sat_t <- saturation_vapor_pressure tas ice_thresh method ;;
           Ok (map2 (fun a b => fdiv (fmul (Some 100) a) b)
                    (data e_sat_dt) (data e_sat_t))
       | None =>
           ps <- convert_optional ps "Pa" ;;
           huss <- convert_optional huss "" ;;
           let tas := convert_units_to tas "degK" in
           e_sat <- saturation_vapor_pressure tas ice_thresh method ;;
           let w := map (fun h => fdiv h (fsub (Some 1) h)) (data huss) in
           let w_sat :=
             map2 (fun e p => fdiv (fmul (Some 0.62198) e) (fsub p e))
                  (data e_sat) (data ps) in
           Ok (map2 (fun a b => fdiv (fmul (Some 100) a) b) w w_sat)
       end) ;;
  let rh :=
    match invalid_values with
    | Some iv =>
        if String.eqb iv "clip" then map (lift1 (clip 0 100)) rh
        else if String.eqb iv "mask" then
          where_ rh
            (map (fun x => fle x (Some 100) && fge x (Some 0)) rh) None
        else rh
    | None => rh
    end in
  Ok (mkDA rh "%").

(** *** [snowfall_approximation] and [rain_approximation] *)
Definition snowfall_approximation (pr tas : DataArray) (thresh method : string)
  : result DataArray :=
  let thresh := convert_quantity thresh (units tas) in
  prsn <-
    (if String.eqb method "binary"
     then where_other (data pr)
            (map (fun t => flt t (Some thresh)) (data tas)) (Some 0)
     else Raise (ValueError ("Method " ++ method ++ " not in ['binary']."))) ;;
  Ok (mkDA prsn (units pr)).

Definition rain_approximation (pr tas : DataArray) (thresh method : string)
  : result DataArray :=
  prsn <- snowfall_approximation pr tas thresh method ;;
  let prlp := map2 fsub (data pr) (data prsn) in
  Ok (mkDA prlp (units pr)).

End Units.

End Conversion.

(** ** [xclim/indices.py], the other indices

    The decorators of [.checks] ([valid_daily_min_temperature] and the like)
    inspect the metadata of the input before the body runs; they are not
    among the sources, and the functions are modelled on inputs that have
    passed them. *)

Module Indices2.
Import Indices.

Local Open Scope Q_scope.

(** [cond * 1]: a boolean as a whole number. *)
Definition b2z (b : bool) : Z := if b then 1%Z else 0%Z.

(** [x.resample(time=freq).sum(dim='time')] on whole numbers. *)
Definition resample_sum (freq : Freq) (a : DataArray Z) : DataArray Z :=
  map (fun pg => (fst pg, fold_right Z.add 0%Z (values (snd pg))))
      (resample freq a).

(** [cooling_degree_days(tas, thresh=18, freq='YS')] *)
Definition cooling_degree_days (tas : DataArray float) (thresh : Q)
  (freq : Freq) : DataArray Z :=
  let cdd := amap (fun x => b2z (gt x (K2C + thresh))) tas in
  resample_sum freq cdd.

(** [FD(tasmin, freq='YS')] *)
Definition FD (tasmin : DataArray float) (freq : Freq) : DataArray Z :=
  let f := amap (fun x => b2z (lt x K2C)) tasmin in
  resample_sum freq f.

(** [hotdays(tasmax, thresh=30, freq='YS')] *)
Definition hotdays (tasmax : DataArray float) (thresh : Q) (freq : Freq)
  : DataArray Z :=
  let hd := amap (fun x => b2z (gt x (K2C + thresh))) tasmax in
  resample_sum freq hd.

(** [ID(tasmax, freq='YS')] *)
Definition ID (tasmax : DataArray float) (freq : Freq) : DataArray Z :=
  let f := amap (fun x => b2z (lt x K2C)) tasmax in
  resample_sum freq f.

(** The element of an array at a timestamp. *)
Fixpoint sel {A : Type} (t : Z) (a : DataArray A) : option A :=
  match a with
  | [] => None
  | (t', x) :: a' => if (t' =? t)%Z then Some x else sel t a'
  end.

(** A binary operation between two arrays: xarray aligns them on [time]
    with an inner join, so an element of the left array is kept when the
    right array has its timestamp. *)
Definition binop {A B C : Type} (f : A -> B -> C) (a : DataArray A)
  (b : DataArray B) : DataArray C :=
  flat_map (fun tx => match sel (fst tx) b with
                      | Some y => [(fst tx, f (snd tx) y)]
                      | None => []
                      end) a.

(** [daily_freezethaw_cycles(tasmax, tasmin, freq='YS')] *)
Definition daily_freezethaw_cycles (tasmax tasmin : DataArray float)
  (freq : Freq) : DataArray Z :=
  let ft := amap b2z
              (binop andb (amap (fun x => lt x K2C) tasmin)
                          (amap (fun x => gt x K2C) tasmax)) in
  resample_sum freq ft.

(** Float arithmetic, NaN-propagating. *)
Definition fop (f : Q -> Q -> Q) (x y : float) : float :=
  match x, y with
  | Some a, Some b => Some (f a b)
  | _, _ => None
  end.

(** [x.clip(min=lo)] on one element. *)
Definition clip_min (lo : Q) (x : float) : float :=
  match x with
  | Some v => Some (if Qlt_bool v lo then lo else v)
  | None => None
  end.

(** [x.resample(time=freq).sum(dim='time')] on floats: NaNs are skipped, and
    the sum of nothing is [0]. *)
Definition nansum (l : list float) : float :=
  Some (fold_right Qplus 0 (dropna l)).

(** [min] and [max] over [time] with NaNs skipped; NaN when nothing is
    left. *)
Definition Qmin2 (x y : Q) : Q := if Qle_bool x y then x else y.
Definition Qmax2 (x y : Q) : Q := if Qle_bool x y then y else x.

Definition nanmin (l : list float) : float :=
  match dropna l with
  | [] => None
  | v :: vs => Some (fold_right Qmin2 v vs)
  end.

Definition nanmax (l : list float) : float :=
  match dropna l with
  | [] => None
  | v :: vs => Some (fold_right Qmax2 v vs)
  end.

(** [x.resample(time=freq).reduce(dim='time')] *)
Definition resample_reduce (reduce : list float -> float) (freq : Freq)
  (a : DataArray float) : DataArray float :=
  map (fun pg => (fst pg, reduce (values (snd pg)))) (resample freq a).

(** [GD4(tas, freq='YS')] *)
Definition GD4 (tas : DataArray float) (freq : Freq) : DataArray float :=
  let thresh := 4 + K2C in
  let dt := amap (fun x => fop Qminus (clip_min thresh x) (Some thresh)) tas in
  resample_reduce nansum freq dt.

(** [HD(tas, freq='YS', thresh=17)] *)
Definition HD (tas : DataArray float) (freq : Freq) (thresh : Q)
  : DataArray float :=
  let hd := amap (fun x => clip_min 0 (fop Qminus (Some (thresh + K2C)) x))
                 tas in
  resample_reduce nansum freq hd.

(** [TNn], [TNx], [TXn], [TXx] *)
Definition TNn (tasmin : DataArray float) (freq : Freq) : DataArray float :=
  resample_reduce nanmin freq tasmin.
Definition TNx (tasmin : DataArray float) (freq : Freq) : DataArray float :=
  resample_reduce nanmax freq tasmin.
Definition TXn (tasmax : DataArray float) (freq : Freq) : DataArray float :=
  resample_reduce nanmin freq tasmax.
Definition TXx (tasmax : DataArray float) (freq : Freq) : DataArray float :=
  resample_reduce nanmax freq tasmax.

(** [TN10p(tasmin, p10, freq='YS')]: each day is compared with the entry of
    its day of year in [p10]; a day of year that [p10] lacks is compared
    with NaN. *)
Definition TN10p (dayofyear : Z -> Z) (tasmin p10 : DataArray float)
  (freq : Freq) : DataArray Z :=
  let below :=
    map (fun tx =>
           let other_sel := match sel (dayofyear (fst tx)) p10 with
                            | Some v => v
                            | None => None
                            end in
           (fst tx,
            match snd tx, other_sel with
            | Some x, Some p => Qlt_bool x p
            | _, _ => false
            end)) tasmin in
  resample_sum freq (amap b2z below).

End Indices2.

(** ** [xclim/indices/_conversion.py], the other conversions *)

Module Conversion2.
Import Conversion.

Local Open Scope R_scope.

(** [np.radians] *)
Definition radians (a : R) : R := a * PI / 180.

(** [x ** y] for a fractional exponent: NaN for a negative base, [0] for
    the base [0]. *)
Definition fpow (x : float) (y : R) : float :=
  match x with
  | Some a =>
      if Rlt_dec 0 a then Some (Rpower a y)
      else if Req_dec_T a 0 then Some 0
      else None
  | None => None
  end.

(** [np.clip(x, lo, hi)] with arrays as bounds, NaN-propagating. *)
Definition fclip (lo hi x : float) : float :=
  match x, lo, hi with
  | Some a, Some l, Some h => Some (Rmin (Rmax a l) h)
  | _, _, _ => None
  end.

Section Units.

Variable convert_units_to : DataArray -> string -> DataArray.
Variable convert_quantity : string -> string -> R.

(** [tas(tasmin, tasmax)] *)
Definition tas (tasmin tasmax : DataArray) : DataArray :=
  let tasmax := convert_units_to tasmax (units tasmin) in
  let tas := map2 (fun x n => fdiv (fadd x n) (Some 2))
                  (data tasmax) (data tasmin) in
  mkDA tas (units tasmin).

(** [sfcwind_2_uas_vas(sfcWind, sfcWindfromdir)] *)
Definition sfcwind_2_uas_vas (sfcWind sfcWindfromdir : DataArray)
  : DataArray * DataArray :=
  let sfcWind := convert_units_to sfcWind "m/s" in
  let windfromdir_math :=
    map (fun d => lift2 Rmod (fadd (lift1 Ropp d) (Some 270)) (Some 360))
        (data sfcWindfromdir) in
  let uas :=
    map2 fmul (data sfcWind)
         (map (lift1 (fun a => cos (radians a))) windfromdir_math) in
  let vas :=
    map2 fmul (data sfcWind)
         (map (lift1 (fun a => sin (radians a))) windfromdir_math) in
  (mkDA uas "m s-1", mkDA vas "m s-1").

(** [specific_humidity(tas, rh, ps, ice_thresh, method, invalid_values)] *)
Definition specific_humidity (tas rh ps : DataArray)
  (ice_thresh : option string) (method : string)
  (invalid_values : option string) : result DataArray :=
  let ps := convert_units_to ps "Pa" in
  let rh := convert_units_to rh "" in
  let tas := convert_units_to tas "degK" in
  e_sat <- saturation_vapor_pressure convert_quantity tas ice_thresh method ;;
  let w_sat :=
    map2 (fun e p => fdiv (fmul (Some 0.62198) e) (fsub p e))
         (data e_sat) (data ps) in
  let w := map2 fmul w_sat (data rh) in
  let q := map (fun x => fdiv x (fadd (Some 1) x)) w in
  let q :=
    match invalid_values with
    | Some iv =>
        let q_sat := map (fun x => fdiv x (fadd (Some 1) x)) w_sat in
        if String.eqb iv "clip" then map2 (fclip (Some 0)) q_sat q
        else if String.eqb iv "mask" then
          where_ q (map2 (fun x s => fle x s && fge x (Some 0)) q q_sat) None
        else q
    | None => q
    end in
  Ok (mkDA q "").

(** [wind_chill_index(tas, sfcWind, slow_wind_calc, mask_invalid,
    max_temp_thresh, min_wind_thresh)] *)
Definition wind_chill_index (tas sfcWind : DataArray)
  (slow_wind_calc mask_invalid : bool)
  (max_temp_thresh min_wind_thresh : string) : DataArray :=
  let tas := convert_units_to tas "degC" in
  let sfcWind := convert_units_to sfcWind "km/h" in
  let max_temp_thresh := convert_quantity max_temp_thresh "degC" in
  let min_wind_thresh := convert_quantity min_wind_thresh "km/h" in
  let V := map (fun x => fpow x 0.16) (data sfcWind) in
  let W :=
    map2 (fun t v =>
            fadd (fsub (fadd (Some 13.12) (fmul (Some 0.6215) t))
                       (fmul (Some 11.37) v))
                 (fmul (fmul (Some 0.3965) t) v))
         (data tas) V in
  let W :=
    if slow_wind_calc then
      where3 (map (fun x => flt x (Some min_wind_thresh)) (data sfcWind))
             (map2 (fun t x =>
                      fadd t
                        (fdiv (fmul x
                                 (fadd (Some (-1.59))
                                       (fmul (Some 0.1345) t)))
                              (Some 5)))
                   (data tas) (data sfcWind))
             W
    else if mask_invalid then
      where_ W (map (fun x => fge x (Some min_wind_thresh)) (data sfcWind))
             None
    else W in
  let W :=
    if mask_invalid then
      where_ W (map (fun t => fle t (Some max_temp_thresh)) (data tas)) None
    else W in
  mkDA W "".

End Units.

End Conversion2.

(** ** Specification-side definitions for the other indices *)

Module Indices2Spec.
Import Indices Indices2.

Local Open Scope Q_scope.

(** The sum of a list of whole numbers. *)
Definition total (l : list Z) : Z := fold_right Z.add 0%Z l.

(** Two arrays side by side, position by position. *)
Definition pair_up {A B : Type} (a : DataArray A) (b : DataArray B)
  : DataArray (A * B) :=
  map (fun p => (fst (fst p), (snd (fst p), snd (snd p)))) (combine a b).

(** A series of consecutive days: at least one day, and each day the day
    after the one before it. *)
Definition consecutive_days {A : Type} (a : DataArray A) : Prop :=
  exists (t0 : Z) (n : nat),
    times a = map (fun k => (t0 + Z.of_nat k)%Z) (seq 0 (S n)).

(** The least and the greatest of the values that are not NaN; NaN when
    there is none. *)
Definition least_of (m : float) (l : list float) : Prop :=
  match m with
  | Some lo => In (Some lo) l /\ forall v, In (Some v) l -> lo <= v
  | None => forall v, ~ In (Some v) l
  end.

Definition greatest_of (m : float) (l : list float) : Prop :=
  match m with
  | Some hi => In (Some hi) l /\ forall v, In (Some v) l -> v <= hi
  | None => forall v, ~ In (Some v) l
  end.

(** The order of float elements: both NaN, or both numbers that compare. *)
Definition float_le (x y : float) : Prop :=
  match x, y with
  | Some a, Some b => a <= b
  | None, None => True
  | _, _ => False
  end.

(** The sum of a list of rational numbers. *)
Definition Qsum (l : list Q) : Q := fold_right Qplus 0 l.

(** What one day adds to [GD4] and to [HD]. *)
Definition growing (thresh v : Q) : Q :=
  (if Qlt_bool v thresh then thresh else v) - thresh.
Definition heating (thresh v : Q) : Q :=
  if Qlt_bool (thresh - v) 0 then 0 else thresh - v.

(** The head of a list is at most every element of it. *)
Definition head_is_least (l : list Q) : Prop :=
  match l with
  | [] => True
  | x :: xs => Forall (fun v => x <= v) xs
  end.

(** The masked index of [CFD] from the flags "above freezing", the first
    day having index [i]. *)
Fixpoint masked_index (i : nat) (ms : list bool) : list findex :=
  match ms with
  | [] => []
  | m :: ms' => where_nan (Z.of_nat i) m :: masked_index (S i) ms'
  end.

(** A series that begins and ends with a day above freezing: such days,
    each followed by [k] frost days, and a last day above freezing. *)
Inductive mild_ended : list bool -> Prop :=
| me_last : mild_ended [true]
| me_run (k : nat) (ms : list bool) :
    mild_ended ms -> mild_ended (true :: repeat false k ++ ms).

End Indices2Spec.

(** ** Specification-side definitions and sample inputs for [_conversion.py] *)

Module ConversionSpec.
Import Conversion.

Local Open Scope R_scope.

(** The labels the dispatch of [saturation_vapor_pressure] knows. *)
Definition svp_methods : list string :=
  ["sonntag90"; "SO90"; "tetens30"; "TE30";
   "goffgratch46"; "GG46"; "wmo08"; "WMO08"]%string.

(** A percentage, or NaN. *)
Definition in_0_100 (x : float) : Prop :=
  match x with
  | Some r => 0 <= r <= 100
  | None => True
  end.





(** A units layer for inputs that already are in the target units. *)
Definition same_units (a : DataArray) (target : string) : DataArray := a.


(** The magnitude of ["0 degC"] in kelvins. *)
Definition freezing (quantity target : string) : R := 273.15.


(** One day at 300 K, one day missing; dew points of 290 K and 280 K. *)
Definition tas_sample : DataArray := mkDA [Some 300; None] "K".
Definition dtas_sample : DataArray := mkDA [Some 290; Some 280] "K".

(** Two days of precipitation. *)
Definition pr_sample : DataArray := mkDA [Some 2; Some 0] "mm/d".

End ConversionSpec.

(** ** Specification-side definitions for the other conversions *)

Module Conversion2Spec.
Import Conversion Conversion2.

Local Open Scope R_scope.

(** The saturation mixing ratio from the saturation vapour pressure and the
    air pressure, and the specific humidity of a mixing ratio, as
    [specific_humidity] computes them at one point. *)
Definition saturation_mixing_ratio (e p : float) : float :=
  fdiv (fmul (Some 0.62198) e) (fsub p e).

Definition mixing_to_specific (w : float) : float :=
  fdiv w (fadd (Some 1) w).

(** Two days of wind: 10 m/s from the east, 3 m/s from the north. *)
Definition wind_sample : DataArray := mkDA [Some 10; Some 3] "m/s".
Definition dir_sample : DataArray := mkDA [Some 90; Some 360] "degree".

(** Temperatures in kelvins: the triple point, and a missing day. *)
Definition triple_point : DataArray := mkDA [Some 273.16; None] "K".

(** Pressures in pascals and relative humidities as fractions. *)
Definition ps_sample : DataArray := mkDA [Some 101325; Some 101325] "Pa".
Definition rh_sample : DataArray := mkDA [Some (1 / 2); Some 1] "".

(** Temperatures in ℃ and winds in km/h for the wind chill. *)
Definition cold_sample : DataArray := mkDA [Some (-10); Some (-5)] "degC".
Definition breeze_sample : DataArray := mkDA [Some 2; Some 0] "km/h".

(** The magnitudes of ["0 degC"] in ℃ and of ["5 km/h"] in km/h. *)
Definition wind_chill_units (quantity target : string) : R :=
  if String.eqb target "degC" then 0 else 5.

End Conversion2Spec.

(** ** Specification-side definitions and sample inputs for [indices.py] *)

Module IndicesSpec.
Import Indices.

Local Open Scope Q_scope.

(** The length of the run that is open during the scan, [0] if none is. *)
Definition open_len (cur : option Run) : nat :=
  match cur with Some r => run_len r | None => 0%nat end.

(** A daily series from its temperatures, timestamps [0, 1, 2, ...]. *)
Definition daily (temps : list Q) : DataArray float :=
  combine (map Z.of_nat (seq 0 (length temps))) (map Some temps).

(** One period for the whole series, and periods of three days. *)
Definition whole : Freq := fun _ => 0%Z.
Definition every3 : Freq := fun t => (t / 3)%Z.

(** *** The pool of [percentile_doy], by position *)

(** Element [k] of the window centred on position [i]: the value [w / 2]
    places before [i] for [k = 0], NaN outside the series. *)
Definition value_at (arr : DataArray float) (w i k : nat) : float :=
  if (w / 2 <=? i + k)%nat then nth (i + k - w / 2) (values arr) None
  else None.

Definition window_at (arr : DataArray float) (w i : nat) : list float :=
  map (value_at arr w i) (seq 0 w).

(** The positions of the series whose timestamp falls on day of year [d]. *)
Definition positions (dayofyear : Z -> Z) (arr : DataArray float)
  (d : Z) : list nat :=
  filter (fun i => (dayofyear (nth i (times arr) 0%Z) =? d)%Z)
         (seq 0 (length arr)).

(** What [percentile_doy] pools for day of year [d]: the windows around the
    positions that fall on [d]. *)
Definition pool_by_position (dayofyear : Z -> Z) (arr : DataArray float)
  (w : nat) (d : Z) : list float :=
  concat (map (window_at arr w) (positions dayofyear arr d)).

(** *** The pool in the specification's words

    Section 4.5: the values at timestamps whose day of year lies within
    [w / 2] days of [d], circularly across the turn of the year, over all
    years of the calibration span. *)
Definition circular_distance (year_length d1 d2 : Z) : Z :=
  let gap := (Z.max d1 d2 - Z.min d1 d2)%Z in
  Z.min gap (year_length - gap).

Definition pool_by_doy (dayofyear : Z -> Z) (year_length : Z)
  (arr : DataArray float) (w d : Z) : list float :=
  values (filter (fun tx =>
            (circular_distance year_length (dayofyear (fst tx)) d <=? w / 2)%Z)
          arr).

(** *** Sample calendars and series *)

(** A calendar of 365-day years; timestamp [0] is January 1st. *)
Definition noleap (t : Z) : Z := (t mod 365 + 1)%Z.

(** [n] consecutive days, the value of day [t] being [t]. *)
Definition ramp (n : nat) : DataArray float :=
  map (fun t => (Z.of_nat t, Some (inject_Z (Z.of_nat t)))) (seq 0 n).

(** The table entry of a day of year, if there is one. *)
Fixpoint entry (p : DataArray float) (d : Z) : option float :=
  match p with
  | [] => None
  | (k, v) :: p' => if (k =? d)%Z then Some v else entry p' d
  end.

(** *** Invocations of [percentile_doy]

    What could differ between two invocations on the same arguments, made
    explicit: the order in which the loop meets the groups of days, and
    what the table holds, under its keys, before the loop fills it. *)
Record Schedule : Type := mkSchedule {
  visit : list (Z * DataArray (list float))
          -> list (Z * DataArray (list float));
  start : DataArray nat -> DataArray float
}.

Definition admissible (s : Schedule) : Prop :=
  (forall g, Permutation g (visit s g))
  /\ (forall c, times (start s c) = times c).

(** [percentile_doy] under a schedule. *)
Definition invocation (dayofyear : Z -> Z) (arr : DataArray float)
  (window : Z) (per : Q) (s : Schedule) : result (DataArray float) :=
  r <- rolling arr window ;;
  rr <- construct r ;;
  let g := groupby dayofyear rr in
  let c := count g in
  fill_table per (visit s g) (start s c).

(** The schedule of the code: the groups in the order of their keys, on a
    table of NaN. *)
Definition as_written : Schedule := mkSchedule (fun g => g) full_like_nan.

(** Another one: the groups from the last to the first, on a table of
    zeros. *)
Definition backwards : Schedule :=
  mkSchedule (@rev _) (amap (fun _ => Some 0)).

(** The group of a key, and the quantile of a pool where there is one. *)
Fixpoint group_of {A : Type} (k : Z) (g : list (Z * A)) : option A :=
  match g with
  | [] => None
  | (k', x) :: g' => if (k' =? k)%Z then Some x else group_of k g'
  end.

Definition quantile_value (per : Q) (pool : list float) : float :=
  match quantile per pool with
  | Ok q => q
  | Raise _ => None
  end.

End IndicesSpec.

(** * Properties of [indices.py] *)

Module IndicesFacts.
Import Indices IndicesSpec.

(** ** Run lengths *)

Section RunLengths.

Local Abbreviation longest rs := (fold_right Nat.max 0%nat (map run_len rs)).

Lemma longest_scan_upper (xs : list bool) :
  forall pos cur,
    (longest (scan pos cur xs) <= open_len cur + length xs)%nat.
Proof.
  induction xs as [| x xs IH]; intros pos cur.
  - destruct cur; simpl; lia.
  - destruct x; simpl.
    + specialize (IH (S pos)
        (Some match cur with
              | Some r => mkRun (run_start r) (S (run_len r))
              | None => mkRun pos 1
              end)).
      destruct cur; simpl in *; lia.
    + destruct cur as [r |]; simpl.
      * specialize (IH (S pos) None). simpl in IH. lia.
      * specialize (IH (S pos) None). simpl in IH. lia.
Qed.

Lemma longest_scan_lower (xs : list bool) :
  forall pos cur, (open_len cur <= longest (scan pos cur xs))%nat.
Proof.
  induction xs as [| x xs IH]; intros pos cur.
  - destruct cur; simpl; lia.
  - destruct x; simpl.
    + specialize (IH (S pos)
        (Some match cur with
              | Some r => mkRun (run_start r) (S (run_len r))
              | None => mkRun pos 1
              end)).
      destruct cur; simpl in *; lia.
    + specialize (IH (S pos) None). destruct cur as [r |]; simpl in *; lia.
Qed.

Lemma longest_scan_all_true (xs : list bool) :
  forall pos cur,
    Forall (eq true) xs ->
    longest (scan pos cur xs) = (open_len cur + length xs)%nat.
Proof.
  induction xs as [| x xs IH]; intros pos cur Hall.
  - destruct cur; simpl; lia.
  - inversion Hall as [| ? ? Hx Hxs]; subst. simpl.
    rewrite IH by assumption. destruct cur; simpl; lia.
Qed.

Lemma longest_scan_full (xs : list bool) :
  forall pos cur,
    longest (scan pos cur xs) = (open_len cur + length xs)%nat ->
    Forall (eq true) xs.
Proof.
  induction xs as [| x xs IH]; intros pos cur Heq.
  - constructor.
  - destruct x; simpl in Heq.
    + constructor; [reflexivity |].
      eapply (IH (S pos)). rewrite Heq. destruct cur; simpl; lia.
    + exfalso.
      pose proof (longest_scan_upper xs (S pos) None) as Hup. simpl in Hup.
      destruct cur as [r |]; simpl in *; lia.
Qed.

Lemma longest_scan_some_true (xs : list bool) :
  forall pos cur, In true xs -> (1 <= longest (scan pos cur xs))%nat.
Proof.
  induction xs as [| x xs IH]; intros pos cur Hin.
  - destruct Hin.
  - destruct x; simpl.
    + pose proof (longest_scan_lower xs (S pos)
        (Some match cur with
              | Some r => mkRun (run_start r) (S (run_len r))
              | None => mkRun pos 1
              end)) as Hlow.
      destruct cur; simpl in *; lia.
    + destruct Hin as [Hin | Hin]; [discriminate |].
      specialize (IH (S pos) None Hin).
      destruct cur as [r |]; simpl in *; lia.
Qed.

Lemma scan_no_true (xs : list bool) :
  forall pos, ~ In true xs -> scan pos None xs = [].
Proof.
  induction xs as [| x xs IH]; intros pos Hnin; [reflexivity |].
  destruct x; simpl.
  - exfalso. apply Hnin. now left.
  - apply IH. intro H. apply Hnin. now right.
Qed.

(** The run statistic of section 4.2, as [CFD2] applies it to each period:
    at most the length of the sequence, equal to it exactly when every entry
    is [True], and zero exactly when no entry is. *)
Lemma longest_run_bounds (xs : list bool) :
  (longest_run xs <= length xs)%nat
  /\ (longest_run xs = length xs <-> Forall (eq true) xs)
  /\ (longest_run xs = 0%nat <-> ~ In true xs).
Proof.
  unfold longest_run, runs.
  split; [| split].
  - apply (longest_scan_upper xs 0 None).
  - split.
    + intro H. apply (longest_scan_full xs 0 None). exact H.
    + intro H. apply (longest_scan_all_true xs 0 None H).
  - split.
    + intros H Hin.
      pose proof (longest_scan_some_true xs 0 None Hin). lia.
    + intro H. rewrite (scan_no_true xs 0 H). reflexivity.
Qed.

(** The scenarios of section 8 of the specification. *)
Example runs_of_scenario_1 :
  runs [false; false; true; true; true; false; true; true]
  = [mkRun 2 3; mkRun 6 2]
  /\ longest_run [false; false; true; true; true; false; true; true] = 3%nat
  /\ windowed_run_count
       [false; false; true; true; true; false; true; true] 3 = Ok 3%Z.
Proof. repeat split. Qed.

Example runs_of_scenario_2 :
  longest_run (repeat false 10) = 0%nat
  /\ windowed_run_count (repeat false 10) 1 = Ok 0%Z.
Proof. split; reflexivity. Qed.

Example runs_of_scenario_3 :
  longest_run (repeat true 7) = 7%nat
  /\ windowed_run_count (repeat true 7) 5 = Ok 7%Z.
Proof. split; reflexivity. Qed.

End RunLengths.

(** ** [CFD] against [CFD2] *)

Local Open Scope Q_scope.

(** ** Resampling first: [CFD2] *)

Lemma resample_amap {A B : Type} (f : A -> B) (freq : Freq) (a : DataArray A) :
  resample freq (amap f a)
  = map (fun pg => (fst pg, amap f (snd pg))) (resample freq a).
Proof.
  induction a as [| [t x] a IH]; [reflexivity |].
  unfold amap in *. cbn [map resample fst snd]. rewrite IH.
  destruct (resample freq a) as [| [p g] gs]; [reflexivity |].
  cbn [map fst snd]. destruct (Z.eqb (freq t) p); reflexivity.
Qed.

Lemma group_apply_total {A B : Type} (f : DataArray A -> B)
  (group : list (Z * DataArray A)) :
  group_apply (fun x => Ok (Some (f x))) group
  = Ok (map (fun pg => (fst pg, f (snd pg))) group).
Proof.
  induction group as [| [p g] gs IH]; [reflexivity |].
  cbn. rewrite IH. reflexivity.
Qed.

(** The elements of the periods, in order, are those of the series. *)
Lemma resample_concat {A : Type} (freq : Freq) (a : DataArray A) :
  concat (map snd (resample freq a)) = a.
Proof.
  induction a as [| [t x] a IH]; [reflexivity |].
  cbn [resample].
  destruct (resample freq a) as [| [p g] gs]; cbn in *.
  - now rewrite <- IH.
  - destruct (Z.eqb (freq t) p); cbn; now rewrite <- IH.
Qed.

(** [CFD2] gives each period the longest run of its own days. *)
Lemma CFD2_period_local (tasmin : DataArray float) (freq : Freq) :
  tasmin <> [] ->
  CFD2 tasmin freq
  = Ok (map (fun pg =>
               (fst pg,
                longest_run (map (fun x => lt x K2C) (values (snd pg)))))
            (resample freq tasmin)).
Proof.
  intro Hday. unfold CFD2, resample_groups.
  destruct tasmin as [| tx rest]; [congruence |].
  change (amap (fun x => lt x K2C) (tx :: rest))
    with ((fst tx, lt (snd tx) K2C) :: amap (fun x => lt x K2C) rest).
  cbn [bind].
  change ((fst tx, lt (snd tx) K2C) :: amap (fun x => lt x K2C) rest)
    with (amap (fun x => lt x K2C) (tx :: rest)).
  rewrite group_apply_total, resample_amap, map_map.
  f_equal. apply map_ext. intros [p g]. cbn [fst snd].
  unfold apply_ufunc, values, amap. rewrite !map_map. reflexivity.
Qed.

(** ** Differences first: [CFD] on a series of frost days only *)

Lemma bfill_all_nan (n : nat) : bfill (repeat None n) = repeat None n.
Proof.
  induction n as [| n IH]; [reflexivity |].
  cbn. rewrite IH. destruct n; reflexivity.
Qed.

Lemma diff_all_nan (n : nat) : diff (repeat None n) = repeat None (n - 1).
Proof.
  induction n as [| n IH]; [reflexivity |].
  destruct n as [| n]; [reflexivity |].
  cbn [repeat diff] in *. rewrite IH. cbn. rewrite Nat.sub_0_r. reflexivity.
Qed.

Lemma where_all_frost (temps : list float) :
  Forall (fun x => gt x K2C = false) temps ->
  forall ind : list Z,
    length ind = length temps ->
    map (fun iv => where_nan (fst iv) (gt (snd iv) K2C)) (combine ind temps)
    = repeat None (length temps).
Proof.
  induction 1 as [| x temps Hx Hall IH]; intros [| i ind] Hlen;
    cbn in *; try discriminate; [reflexivity |].
  rewrite Hx. cbn. f_equal. apply IH. lia.
Qed.

Lemma nanmax_all_nan (l : list findex) :
  Forall (eq None) l -> nanmax l = None.
Proof.
  induction 1 as [| x l Hx Hall IH]; [reflexivity |].
  subst x. cbn. exact IH.
Qed.

Lemma resample_values_forall {A : Type} (P : A -> Prop) (freq : Freq)
  (a : DataArray A) :
  Forall P (values a) ->
  Forall (fun pg => Forall P (values (snd pg))) (resample freq a).
Proof.
  induction a as [| [t x] a IH]; intro H; [constructor |].
  cbn in H. inversion H as [| ? ? Hx Ha]; subst.
  specialize (IH Ha). cbn [resample].
  destruct (resample freq a) as [| [p g] gs].
  - repeat constructor; assumption.
  - inversion IH as [| ? ? Hg Hgs]; subst. cbn in Hg.
    destruct (Z.eqb (freq t) p); repeat constructor; cbn; assumption.
Qed.

Lemma values_combine_forall {A : Type} (P : A -> Prop) (ts : list Z) :
  forall l : list A, Forall P l -> Forall P (values (combine ts l)).
Proof.
  induction ts as [| t ts IH]; intros l H; [constructor |].
  destruct H as [| x l Hx Hl]; [constructor |].
  cbn. constructor; [assumption | apply IH; assumption].
Qed.

(** When no day is above freezing, [CFD] reports NaN for every period,
    whatever the length of the series and the frequency. *)
Lemma CFD_all_frost (tasmin : DataArray float) (freq : Freq) :
  Forall (fun x => gt x K2C = false) (values tasmin) ->
  Forall (fun pv => snd pv = None) (CFD tasmin freq).
Proof.
  intro Hfrost. unfold CFD.
  rewrite where_all_frost;
    [| assumption
     | unfold arange, values; now rewrite !length_map, length_seq].
  rewrite bfill_all_nan, diff_all_nan.
  apply Forall_map. cbn [snd].
  eapply Forall_impl;
    [| apply (resample_values_forall (eq None)) ].
  - intros [p g] Hg. cbn [snd] in *. apply nanmax_all_nan. exact Hg.
  - apply values_combine_forall. apply Forall_map.
    apply Forall_forall. intros x Hx. apply repeat_spec in Hx. now subst.
Qed.

(** C1. The longest-run statistic of a sequence of length [n] should be [n]
    when every day is a frost day and [0] only when none is.  [CFD] misses
    the runs that touch the ends of the series: three frost days give NaN
    instead of [3], and a frost day followed by a mild day gives [-1]
    instead of [1]; [CFD2] on the same input returns [3] and [1]. *)
Theorem CFD_misses_runs_at_series_ends :
  CFD (daily [270; 270; 270]) whole = [(0%Z, None)]
  /\ CFD2 (daily [270; 270; 270]) whole = Ok [(0%Z, 3%nat)]
  /\ CFD (daily [270; 280]) whole = [(0%Z, Some (-1)%Z)]
  /\ CFD2 (daily [270; 280]) whole = Ok [(0%Z, 1%nat)].
Proof. repeat split; vm_compute; reflexivity. Qed.

(** C2. A period's statistic should only see the days of that period.
    [CFD] takes the differences over the whole series before resampling:
    with a mild day, four frost days and a mild day cut into two periods of
    three days, the first period reports [4] (more than its three days) and
    the second [-1], where [CFD2] reports [2] for each. *)
Theorem CFD_run_not_truncated_at_period_boundary :
  CFD (daily [280; 270; 270; 270; 270; 280]) every3
    = [(0%Z, Some 4%Z); (1%Z, Some (-1)%Z)]
  /\ CFD2 (daily [280; 270; 270; 270; 270; 280]) every3
    = Ok [(0%Z, 2%nat); (1%Z, 2%nat)].
Proof. split; vm_compute; reflexivity. Qed.

(** The callback of [HWI] and [CSI] on the first period: the run statistic
    refuses a window that is not positive, and with a positive window the
    callback returns nothing. *)
Lemma valueless_callback {A : Type} (f : A -> bool) (window : Z) (t : Z)
  (x : A) (rest : DataArray A) (freq : Freq) :
  let func := fun g : DataArray bool =>
    _ <- apply_ufunc (fun v => windowed_run_count v window) g ;;
    Ok (@None Z) in
  if (0 <? window)%Z
  then exists msg,
      group_apply func (resample freq (amap f ((t, x) :: rest)))
      = Raise (AttributeError msg)
  else exists msg,
      group_apply func (resample freq (amap f ((t, x) :: rest)))
      = Raise (ValueError msg).
Proof.
  intro func. unfold amap. cbn [map fst snd resample].
  assert (Hfunc : forall g,
    func g = if (window <=? 0)%Z
             then Raise (ValueError "window must be at least 1")
             else Ok None).
  { intro g. unfold func, apply_ufunc, windowed_run_count.
    destruct (window <=? 0)%Z; reflexivity. }
  assert (Hw : (window <=? 0)%Z = negb (0 <? window)%Z).
  { destruct (Z.leb_spec window 0), (Z.ltb_spec 0 window);
      try reflexivity; lia. }
  assert (Hgroup : forall p g gs,
    if (0 <? window)%Z
    then exists msg,
        group_apply func ((p, g) :: gs) = Raise (AttributeError msg)
    else exists msg,
        group_apply func ((p, g) :: gs) = Raise (ValueError msg)).
  { intros p g gs. cbn [group_apply]. rewrite Hfunc, Hw.
    destruct (0 <? window)%Z; cbn; eexists; reflexivity. }
  destruct (resample freq _) as [| [p g] gs].
  - apply Hgroup.
  - destruct (Z.eqb _ _); apply Hgroup.
Qed.

(** C3. [HWI] and [CSI] should return one number per period.  Their callback
    returns nothing, so on any series that has at least one day the call
    raises instead of returning values: the [AttributeError] of the
    concatenation when the window is positive, and otherwise the
    [ValueError] with which the run statistic refuses the window. *)
Theorem HWI_CSI_return_no_value :
  forall (t : Z) (x : float) (rest : DataArray float)
         (thresh : Q) (window : Z) (freq : Freq),
    (if (0 <? window)%Z
     then exists msg,
         HWI ((t, x) :: rest) thresh window freq = Raise (AttributeError msg)
     else exists msg,
         HWI ((t, x) :: rest) thresh window freq = Raise (ValueError msg))
    /\ (if (0 <? window)%Z
        then exists msg,
            CSI ((t, x) :: rest) thresh window freq
            = Raise (AttributeError msg)
        else exists msg,
            CSI ((t, x) :: rest) thresh window freq
            = Raise (ValueError msg)).
Proof.
  intros t x rest thresh window freq.
  split.
  - exact (valueless_callback (fun v => gt v (K2C + thresh)) window t x rest
             freq).
  - exact (valueless_callback (fun v => lt v (K2C + thresh)) window t x rest
             freq).
Qed.

(** ** [percentile_doy] *)

Lemma Qlt_bool_iff (x y : Q) : Qlt_bool x y = true <-> x < y.
Proof.
  unfold Qlt_bool. rewrite negb_true_iff. split.
  - intro H. apply Qnot_le_lt. intro Hle.
    apply Qle_bool_iff in Hle. congruence.
  - intro H. destruct (Qle_bool y x) eqn:E; [| reflexivity].
    apply Qle_bool_iff in E. exfalso. exact (Qlt_not_le _ _ H E).
Qed.

Lemma quantile_in_range (per : Q) (pool : list float) :
  0 <= per <= 1 -> exists q, quantile per pool = Ok q.
Proof.
  intros [H0 H1]. unfold quantile.
  destruct (Qlt_bool per 0) eqn:E0.
  { apply Qlt_bool_iff in E0. exfalso. exact (Qlt_not_le _ _ E0 H0). }
  destruct (Qlt_bool 1 per) eqn:E1.
  { apply Qlt_bool_iff in E1. exfalso. exact (Qlt_not_le _ _ E1 H1). }
  cbn [orb]. destruct (sort (dropna pool)); eexists; reflexivity.
Qed.

Lemma quantile_out_of_range (per : Q) (pool : list float) :
  per < 0 \/ 1 < per ->
  quantile per pool
  = Raise (ValueError "Percentiles must be in the range [0, 100]").
Proof.
  intros H. unfold quantile.
  destruct H as [H | H]; apply Qlt_bool_iff in H; rewrite H.
  - reflexivity.
  - rewrite orb_true_r. reflexivity.
Qed.

Lemma fill_table_in_range (per : Q) :
  0 <= per <= 1 ->
  forall g p, exists table, fill_table per g p = Ok table.
Proof.
  intros Hper g. induction g as [| [doy ind] g IH]; intro p; cbn.
  - eexists; reflexivity.
  - destruct (quantile_in_range per (pooled ind) Hper) as [q ->]. cbn.
    apply IH.
Qed.

Lemma loc_set_keys (p : DataArray float) (doy : Z) (v : float) :
  times (loc_set p doy v) = times p.
Proof.
  unfold times, loc_set. rewrite map_map. apply map_ext.
  intros [k x]. cbn. destruct (k =? doy)%Z; reflexivity.
Qed.

Lemma loc_set_entries (p : DataArray float) (doy : Z) (v : float) :
  forall k x, In (k, x) (loc_set p doy v) ->
              (k = doy /\ x = v) \/ (k <> doy /\ In (k, x) p).
Proof.
  intros k x Hin. unfold loc_set in Hin.
  apply in_map_iff in Hin. destruct Hin as [[k' x'] [Heq Hin]]. cbn in Heq.
  destruct (k' =? doy)%Z eqn:E.
  - apply Z.eqb_eq in E. inversion Heq; subst. now left.
  - apply Z.eqb_neq in E. inversion Heq; subst. now right.
Qed.

Lemma fill_table_keys (per : Q) :
  forall g p table, fill_table per g p = Ok table -> times table = times p.
Proof.
  induction g as [| [doy ind] g IH]; intros p table H; cbn in H.
  - now inversion H.
  - destruct (quantile per (pooled ind)) as [q |]; cbn in H; [| discriminate].
    rewrite (IH _ _ H). apply loc_set_keys.
Qed.

(** After the loop, an entry of the table is the quantile of the pool of a
    group of that day, or was in the table before and has no group. *)
Lemma fill_table_entries (per : Q) :
  forall g p table,
    fill_table per g p = Ok table ->
    forall k x, In (k, x) table ->
      (exists ind, In (k, ind) g /\ quantile per (pooled ind) = Ok x)
      \/ (~ In k (map fst g) /\ In (k, x) p).
Proof.
  induction g as [| [doy ind] g IH]; intros p table H k x Hin; cbn in H.
  - inversion H; subst. right. split; [intros [] | assumption].
  - destruct (quantile per (pooled ind)) as [q |] eqn:Eq; cbn in H;
      [| discriminate].
    destruct (IH _ _ H k x Hin) as [[ind' [Hg Hq]] | [Hnk Hp]].
    + left. exists ind'. split; [now right | assumption].
    + apply loc_set_entries in Hp. destruct Hp as [[-> ->] | [Hne Hp]].
      * left. exists ind. split; [now left | assumption].
      * right. split; [| assumption].
        cbn. intros [Heq | Hk]; [congruence | contradiction].
Qed.

Lemma insert_key_not_nil (k : Z) (ks : list Z) : insert_key k ks <> [].
Proof.
  destruct ks as [| k' ks]; cbn; [discriminate |].
  destruct (k <? k')%Z; [discriminate |].
  destruct (k =? k')%Z; discriminate.
Qed.

Lemma unique_keys_not_nil (l : list Z) : l <> [] -> unique_keys l <> [].
Proof.
  destruct l as [| k l]; [congruence |]. intros _. cbn.
  apply insert_key_not_nil.
Qed.

(** The timestamps survive [construct]. *)
Lemma map_fst_combine {A B : Type} (l : list A) :
  forall m : list B, length l = length m -> map fst (combine l m) = l.
Proof.
  induction l as [| a l IH]; intros [| b m] H; cbn in *; try congruence.
  f_equal. apply IH. lia.
Qed.

Lemma construct_times (arr : DataArray float) (w : nat) :
  times (rolling_window (arr, w)) = times arr.
Proof.
  unfold rolling_window, times. apply map_fst_combine.
  rewrite !length_map, length_seq. reflexivity.
Qed.

(** [construct] refuses the series without any day and no other. *)
Lemma construct_some_day (arr : DataArray float) (w : nat) :
  (0 < w)%nat -> arr <> [] ->
  construct (arr, w) = Ok (rolling_window (arr, w)).
Proof.
  intros Hw Harr. unfold construct, pad. cbn [snd].
  rewrite !length_app, !repeat_length.
  assert (Hlen : (0 < length (values arr))%nat).
  { destruct arr; [congruence | cbn; lia]. }
  assert (Hhalf : (w / 2 < w)%nat) by (apply Nat.div_lt; lia).
  destruct (Nat.ltb_spec (w / 2 + (length (values arr) + (w - 1 - w / 2))) w);
    [lia | reflexivity].
Qed.

Lemma construct_no_day (w : nat) :
  (0 < w)%nat ->
  construct ([], w) = Raise (ValueError "`window` is too long.").
Proof.
  intro Hw. unfold construct, pad. cbn [snd values map].
  rewrite !length_app, !repeat_length. cbn [length].
  assert (Hhalf : (w / 2 < w)%nat) by (apply Nat.div_lt; lia).
  destruct (Nat.ltb_spec (w / 2 + (0 + (w - 1 - w / 2))) w);
    [reflexivity | lia].
Qed.

Lemma construct_rows (arr : DataArray float) (w : nat)
  (rr : DataArray (list float)) :
  construct (arr, w) = Ok rr -> rr = rolling_window (arr, w).
Proof.
  unfold construct. destruct (_ <? _)%nat; [discriminate |].
  intro H. now inversion H.
Qed.

(** A row of [construct] is the window around its position. *)
Lemma construct_row (arr : DataArray float) (w i : nat) :
  (i < length arr)%nat ->
  firstn w (skipn i (repeat None (w / 2) ++ values arr
                     ++ repeat None (w - 1 - w / 2)))
  = window_at arr w i.
Proof.
  intros Hi. unfold window_at.
  assert (Hhalf : (w = 0 \/ w / 2 < w)%nat).
  { destruct w as [| w']; [now left | right].
    apply Nat.div_lt; lia. }
  assert (Hlen : length (values arr) = length arr).
  { unfold values. apply length_map. }
  apply nth_ext with (d := None) (d' := None).
  - rewrite length_firstn, length_skipn, !length_app, !repeat_length, Hlen,
      length_map, length_seq. lia.
  - intros k Hk.
    rewrite length_firstn, length_skipn, !length_app, !repeat_length, Hlen
      in Hk.
    assert (Hkw : (k < w)%nat) by lia.
    rewrite nth_firstn.
    destruct (k <? w)%nat eqn:E; [| apply Nat.ltb_ge in E; lia].
    rewrite nth_skipn.
    rewrite (nth_indep (map (value_at arr w i) (seq 0 w)) None
               (value_at arr w i 0%nat))
      by (rewrite length_map, length_seq; lia).
    rewrite (map_nth (value_at arr w i) (seq 0 w) 0%nat k).
    rewrite seq_nth by lia. cbn [Nat.add].
    unfold value_at.
    destruct (w / 2 <=? i + k)%nat eqn:E2.
    + apply Nat.leb_le in E2.
      rewrite app_nth2 by (rewrite repeat_length; lia).
      rewrite repeat_length.
      destruct (Nat.lt_ge_cases (i + k - w / 2) (length (values arr)))
        as [Hin | Hout].
      * rewrite app_nth1 by assumption. reflexivity.
      * rewrite app_nth2 by lia.
        rewrite (nth_overflow (values arr)) by lia.
        apply nth_repeat.
    + apply Nat.leb_gt in E2.
      rewrite app_nth1 by (rewrite repeat_length; lia).
      apply nth_repeat.
Qed.

Lemma combine_map_seq {A B : Type} (d0 : A) (f : nat -> B) (l : list A) :
  forall s,
    combine l (map f (seq s (length l)))
    = map (fun i => (nth (i - s) l d0, f i)) (seq s (length l)).
Proof.
  induction l as [| a l IH]; intro s; [reflexivity |].
  cbn [length seq map combine]. rewrite Nat.sub_diag. cbn [nth].
  f_equal. rewrite IH. apply map_ext_in.
  intros i Hi. apply in_seq in Hi.
  replace (i - s)%nat with (S (i - S s)) by lia. reflexivity.
Qed.

Lemma insert_key_in (k : Z) (ks : list Z) :
  forall k', In k' (insert_key k ks) <-> k' = k \/ In k' ks.
Proof.
  induction ks as [| k0 ks IH]; intro k'; cbn.
  - intuition congruence.
  - destruct (k <? k0)%Z; [cbn; intuition congruence |].
    destruct (k =? k0)%Z eqn:E.
    + apply Z.eqb_eq in E. subst. cbn. intuition congruence.
    + cbn. rewrite IH. intuition congruence.
Qed.

(** Every day of year of the series has its key, and only those. *)
Lemma unique_keys_in (l : list Z) :
  forall k, In k (unique_keys l) <-> In k l.
Proof.
  induction l as [| a l IH]; intro k; cbn; [reflexivity |].
  rewrite insert_key_in, IH. intuition congruence.
Qed.

(** ** The loop of [percentile_doy], whatever the order of the groups *)

Lemma insert_key_sorted (k : Z) (ks : list Z) :
  StronglySorted Z.lt ks -> StronglySorted Z.lt (insert_key k ks).
Proof.
  induction ks as [| k0 ks IH]; intro Hs; cbn.
  - repeat constructor.
  - apply StronglySorted_inv in Hs. destruct Hs as [Hs Hall].
    destruct (k <? k0)%Z eqn:E1.
    + apply Z.ltb_lt in E1. constructor.
      * constructor; assumption.
      * constructor; [exact E1 |].
        eapply Forall_impl; [| exact Hall]. intros a Ha. cbn in Ha. lia.
    + destruct (k =? k0)%Z eqn:E2.
      * constructor; assumption.
      * apply Z.ltb_ge in E1. apply Z.eqb_neq in E2.
        constructor; [apply IH; exact Hs |].
        apply Forall_forall. intros a Ha.
        apply insert_key_in in Ha. destruct Ha as [-> | Ha]; [lia |].
        rewrite Forall_forall in Hall. apply Hall. exact Ha.
Qed.

Lemma unique_keys_sorted (l : list Z) : StronglySorted Z.lt (unique_keys l).
Proof.
  induction l as [| a l IH]; cbn; [constructor |].
  apply insert_key_sorted. exact IH.
Qed.

Lemma sorted_NoDup (ks : list Z) : StronglySorted Z.lt ks -> NoDup ks.
Proof.
  induction ks as [| k ks IH]; intro Hs; constructor.
  - apply StronglySorted_inv in Hs. destruct Hs as [_ Hall].
    intro Hin. rewrite Forall_forall in Hall.
    specialize (Hall _ Hin). cbn in Hall. lia.
  - apply IH. apply StronglySorted_inv in Hs. tauto.
Qed.

Lemma group_of_none {A : Type} (k : Z) (g : list (Z * A)) :
  ~ In k (map fst g) -> group_of k g = None.
Proof.
  induction g as [| [k0 x] g IH]; intro H; cbn; [reflexivity |].
  destruct (k0 =? k)%Z eqn:E.
  - apply Z.eqb_eq in E. exfalso. apply H. now left.
  - apply IH. intro Hin. apply H. now right.
Qed.

Lemma group_of_some {A : Type} (k : Z) (g : list (Z * A)) :
  In k (map fst g) -> exists x, group_of k g = Some x.
Proof.
  induction g as [| [k0 x] g IH]; intro H; cbn in *; [contradiction |].
  destruct (k0 =? k)%Z eqn:E; [eexists; reflexivity |].
  apply Z.eqb_neq in E. destruct H as [H | H]; [contradiction |].
  apply IH. exact H.
Qed.

Lemma group_of_perm {A : Type} (g g' : list (Z * A)) :
  Permutation g g' -> NoDup (map fst g) ->
  forall k, group_of k g = group_of k g'.
Proof.
  induction 1 as [| [k0 x] l l' Hp IH | [k1 x1] [k2 x2] l | l l' l'' H1 IH1 H2 IH2];
    intros Hnd k.
  - reflexivity.
  - cbn in *. inversion Hnd; subst.
    destruct (k0 =? k)%Z; [reflexivity | apply IH; assumption].
  - cbn in *. inversion Hnd as [| ? ? Hnot _]; subst.
    destruct (k1 =? k)%Z eqn:E1, (k2 =? k)%Z eqn:E2; try reflexivity.
    apply Z.eqb_eq in E1. apply Z.eqb_eq in E2. subst.
    exfalso. apply Hnot. now left.
  - rewrite IH1 by assumption. apply IH2.
    apply (Permutation_NoDup (Permutation_map fst H1)). exact Hnd.
Qed.

(** Within the closed interval the loop assigns to each group's key the
    quantile of its pool. *)
Lemma fill_table_fold (per : Q) :
  0 <= per <= 1 ->
  forall g p,
    fill_table per g p
    = Ok (fold_left
            (fun p kg =>
               loc_set p (fst kg) (quantile_value per (pooled (snd kg))))
            g p).
Proof.
  intros Hper g. induction g as [| [doy ind] g IH]; intro p;
    [reflexivity |].
  cbn [fill_table fold_left fst snd].
  destruct (quantile_in_range per (pooled ind) Hper) as [q Hq].
  replace (quantile_value per (pooled ind)) with q
    by (unfold quantile_value; rewrite Hq; reflexivity).
  rewrite Hq. cbn [bind]. apply IH.
Qed.

Lemma fold_loc_set (per : Q) (g : list (Z * DataArray (list float))) :
  NoDup (map fst g) ->
  forall p : DataArray float,
    fold_left
      (fun p kg => loc_set p (fst kg) (quantile_value per (pooled (snd kg))))
      g p
    = map (fun kx =>
             match group_of (fst kx) g with
             | Some ind => (fst kx, quantile_value per (pooled ind))
             | None => kx
             end) p.
Proof.
  induction g as [| [d ind] g IH]; intros Hnd p; cbn [fold_left].
  - cbn. symmetry. apply map_id.
  - inversion Hnd as [| ? ? Hnot Hnd']; subst.
    rewrite (IH Hnd'). unfold loc_set. rewrite map_map.
    apply map_ext. intros [k x]. cbn [fst snd group_of].
    rewrite (Z.eqb_sym d k).
    destruct (k =? d)%Z eqn:E; [| reflexivity].
    apply Z.eqb_eq in E. subst k. cbn [fst].
    rewrite (group_of_none d g Hnot). reflexivity.
Qed.

Lemma covered_table (per : Q) (g : list (Z * DataArray (list float)))
  (p : DataArray float) :
  (forall k, In k (times p) -> In k (map fst g)) ->
  map (fun kx =>
         match group_of (fst kx) g with
         | Some ind => (fst kx, quantile_value per (pooled ind))
         | None => kx
         end) p
  = map (fun k =>
           (k, match group_of k g with
               | Some ind => quantile_value per (pooled ind)
               | None => None
               end)) (times p).
Proof.
  induction p as [| [k x] p IH]; intro Hcov; [reflexivity |].
  cbn [map times fst].
  destruct (group_of_some k g (Hcov k (or_introl eq_refl))) as [ind Hind].
  rewrite Hind. f_equal. apply IH. intros k' Hk'. apply Hcov. now right.
Qed.

(** The table after the loop depends neither on the order in which the
    groups are met nor on what the table held under its keys. *)
Lemma fill_table_schedule (per : Q)
  (g g' : list (Z * DataArray (list float))) (p p' : DataArray float) :
  NoDup (map fst g) -> Permutation g g' -> times p' = times p ->
  (forall k, In k (times p) -> In k (map fst g)) ->
  fill_table per g' p' = fill_table per g p.
Proof.
  intros Hnd Hperm Htimes Hcov.
  destruct (Qlt_le_dec per 0) as [Hlo | Hlo];
    [| destruct (Qlt_le_dec 1 per) as [Hhi | Hhi]].
  - destruct g as [| [d ind] g0].
    + apply Permutation_nil in Hperm. subst g'.
      assert (Hp : p = []).
      { destruct p as [| [k x] p]; [reflexivity |].
        destruct (Hcov k (or_introl eq_refl)). }
      subst p. destruct p' as [| kx p']; [reflexivity | discriminate].
    + destruct g' as [| [d' ind'] g0'].
      * apply Permutation_sym, Permutation_nil in Hperm. discriminate.
      * cbn. rewrite !quantile_out_of_range by (left; assumption).
        reflexivity.
  - destruct g as [| [d ind] g0].
    + apply Permutation_nil in Hperm. subst g'.
      assert (Hp : p = []).
      { destruct p as [| [k x] p]; [reflexivity |].
        destruct (Hcov k (or_introl eq_refl)). }
      subst p. destruct p' as [| kx p']; [reflexivity | discriminate].
    + destruct g' as [| [d' ind'] g0'].
      * apply Permutation_sym, Permutation_nil in Hperm. discriminate.
      * cbn. rewrite !quantile_out_of_range by (right; assumption).
        reflexivity.
  - assert (Hper : 0 <= per <= 1) by (split; assumption).
    assert (Hnd' : NoDup (map fst g'))
      by (apply (Permutation_NoDup (Permutation_map fst Hperm)); exact Hnd).
    rewrite !fill_table_fold by assumption. f_equal.
    rewrite !fold_loc_set by assumption.
    rewrite covered_table.
    + rewrite covered_table by assumption. rewrite Htimes.
      apply map_ext. intro k.
      rewrite (group_of_perm g g' Hperm Hnd k). reflexivity.
    + intros k Hk. rewrite Htimes in Hk.
      apply (Permutation_in k (Permutation_map fst Hperm)).
      apply Hcov. exact Hk.
Qed.

Section Percentiles.

Variable dayofyear : Z -> Z.

(** The pool of the group of day [d] is [pool_by_position]. *)
Lemma group_pool (arr : DataArray float) (w : nat) (d : Z) :
  pooled (filter (fun tx => (dayofyear (fst tx) =? d)%Z)
                 (rolling_window (arr, w)))
  = pool_by_position dayofyear arr w d.
Proof.
  unfold pooled, pool_by_position, positions, rolling_window, pad, values.
  replace (length arr) with (length (times arr))
    by (unfold times; apply length_map).
  rewrite (combine_map_seq 0%Z). rewrite filter_map_swap, map_map.
  cbn [fst snd]. f_equal.
  assert (Hext : forall l : list nat,
    (forall i, In i l -> (i < length arr)%nat) ->
    map (fun i => firstn w (skipn i
           (repeat None (w / 2) ++ map snd arr
            ++ repeat None (w - 1 - w / 2)))) l
    = map (window_at arr w) l).
  { intros l Hl. apply map_ext_in. intros i Hi.
    apply (construct_row arr w i). auto. }
  rewrite <- Hext.
  - f_equal. apply filter_ext. intro i. rewrite Nat.sub_0_r. reflexivity.
  - intros i Hi. apply filter_In in Hi. destruct Hi as [Hi _].
    apply in_seq in Hi. unfold times in Hi. rewrite length_map in Hi. lia.
Qed.

Lemma groupby_entry {A : Type} (a : DataArray A) (k : Z) (ind : DataArray A) :
  In (k, ind) (groupby dayofyear a) ->
  ind = filter (fun tx => (dayofyear (fst tx) =? k)%Z) a.
Proof.
  unfold groupby. intro H. apply in_map_iff in H.
  destruct H as [doy [Heq _]]. inversion Heq; subst. reflexivity.
Qed.

Lemma groupby_keys {A : Type} (a : DataArray A) :
  map fst (groupby dayofyear a) = unique_keys (map dayofyear (times a)).
Proof.
  unfold groupby. rewrite map_map. cbn [fst]. apply map_id.
Qed.

(** The table of [percentile_doy]: its keys and its entries. *)
Lemma percentile_doy_table :
  forall (arr : DataArray float) (window : Z) (per : Q)
         (table : DataArray float),
    percentile_doy dayofyear arr window per = Ok table ->
    times table = unique_keys (map dayofyear (times arr))
    /\ forall d q, In (d, q) table ->
         quantile per (pool_by_position dayofyear arr (Z.to_nat window) d)
         = Ok q.
Proof.
  intros arr window per table H.
  unfold percentile_doy, rolling in H.
  destruct (window <=? 0)%Z; cbn [bind] in H; [discriminate |].
  destruct (construct (arr, Z.to_nat window)) as [rr | e] eqn:Hrr;
    cbn [bind] in H; [| discriminate].
  apply construct_rows in Hrr. subst rr.
  split.
  - rewrite (fill_table_keys _ _ _ _ H).
    transitivity
      (map fst (groupby dayofyear (rolling_window (arr, Z.to_nat window)))).
    + unfold full_like_nan, count, amap, times. rewrite !map_map.
      reflexivity.
    + rewrite groupby_keys, construct_times. reflexivity.
  - intros d q Hin.
    destruct (fill_table_entries _ _ _ _ H d q Hin)
      as [[ind [Hg Hq]] | [Hnk Hp]].
    + apply groupby_entry in Hg. subst ind.
      rewrite group_pool in Hq. exact Hq.
    + exfalso. apply Hnk.
      unfold full_like_nan, count, amap in Hp. rewrite map_map in Hp.
      apply in_map_iff in Hp. destruct Hp as [[k g] [Heq Hkg]].
      cbn in Heq. inversion Heq; subst.
      apply in_map_iff. exists (d, g). split; [reflexivity | assumption].
Qed.

(** With a positive window, a series that has a day and a quantile from
    [0] to [1] there is a table. *)
Lemma percentile_doy_total (arr : DataArray float) (window : Z) (per : Q) :
  (0 < window)%Z -> arr <> [] -> 0 <= per <= 1 ->
  exists table, percentile_doy dayofyear arr window per = Ok table.
Proof.
  intros Hw Harr Hper. unfold percentile_doy, rolling.
  destruct (window <=? 0)%Z eqn:E; [apply Z.leb_le in E; lia |].
  cbn [bind]. rewrite construct_some_day by (assumption || lia).
  cbn [bind]. apply fill_table_in_range. exact Hper.
Qed.

(** A quantile below [0] or above [1] leaves no table, whatever the series
    and the window. *)
Lemma percentile_doy_out_of_range (arr : DataArray float) (window : Z)
  (per : Q) :
  per < 0 \/ 1 < per ->
  exists msg, percentile_doy dayofyear arr window per = Raise (ValueError msg).
Proof.
  intro Hper. unfold percentile_doy, rolling.
  destruct (window <=? 0)%Z eqn:E; [cbn; eexists; reflexivity |].
  apply Z.leb_gt in E. cbn [bind].
  destruct arr as [| tx arr'].
  - rewrite construct_no_day by lia. cbn. eexists; reflexivity.
  - rewrite construct_some_day by (lia || discriminate). cbn [bind].
    cbv zeta.
    destruct (groupby dayofyear _) as [| [doy ind] g] eqn:Eg.
    + exfalso.
      apply (f_equal (map fst)) in Eg.
      rewrite groupby_keys, construct_times in Eg.
      apply (unique_keys_not_nil (map dayofyear (times (tx :: arr'))));
        [discriminate | exact Eg].
    + cbn [fill_table]. rewrite (quantile_out_of_range _ _ Hper). cbn.
      eexists; reflexivity.
Qed.

(** C4, as the code has it.  The table has one entry per day of year
    present in the series, and the entry of day [d] is the quantile of the
    values found around every position that falls on [d]: the [window]
    neighbours along the time axis, NaN where the window reaches past either
    end of the series.  The turn of the year is crossed only between
    consecutive years of the series. *)
Theorem percentile_doy_pools_neighbouring_positions :
  forall (arr : DataArray float) (window : Z) (per : Q)
         (table : DataArray float),
    percentile_doy dayofyear arr window per = Ok table ->
    times table = unique_keys (map dayofyear (times arr))
    /\ forall d q, In (d, q) table ->
         quantile per (pool_by_position dayofyear arr (Z.to_nat window) d)
         = Ok q.
Proof. exact percentile_doy_table. Qed.

(** Under every admissible schedule the invocation is [percentile_doy]. *)
Lemma invocation_as_written (arr : DataArray float) (window : Z) (per : Q)
  (s : Schedule) :
  admissible s ->
  invocation dayofyear arr window per s
  = percentile_doy dayofyear arr window per.
Proof.
  intros [Hvisit Hstart]. unfold invocation, percentile_doy.
  destruct (rolling arr window) as [r | e]; cbn [bind]; [| reflexivity].
  destruct (construct r) as [rr | e]; cbn [bind]; [| reflexivity].
  cbv zeta. apply fill_table_schedule.
  - rewrite groupby_keys. apply sorted_NoDup, unique_keys_sorted.
  - apply Hvisit.
  - rewrite Hstart. unfold full_like_nan, amap, times. rewrite map_map.
    reflexivity.
  - intros k Hk. unfold full_like_nan, count, amap, times in Hk.
    rewrite !map_map in Hk. exact Hk.
Qed.

(** C5, as the code has it.  A quantile below [0] or above [1] is refused
    with a [ValueError], whatever the series and the window, and no table
    is returned; a window that is not positive is refused by the run
    statistic, and by [percentile_doy] too.  The two ends of the interval
    are accepted: on a series that has a day, with a positive window, every
    quantile from [0] to [1] yields a table. *)
Theorem percentile_doy_argument_checks :
  forall (arr : DataArray float) (window : Z) (per : Q) (xs : list bool),
    (per < 0 \/ 1 < per ->
       exists msg,
         percentile_doy dayofyear arr window per = Raise (ValueError msg))
    /\ ((window <= 0)%Z ->
       (exists msg, windowed_run_count xs window = Raise (ValueError msg))
       /\ (exists msg,
            percentile_doy dayofyear arr window per
            = Raise (ValueError msg)))
    /\ ((0 < window)%Z -> arr <> [] -> 0 <= per <= 1 ->
       exists table, percentile_doy dayofyear arr window per = Ok table).
Proof.
  intros arr window per xs.
  split; [| split].
  - apply percentile_doy_out_of_range.
  - intro Hw. apply Z.leb_le in Hw.
    unfold windowed_run_count, percentile_doy, rolling. rewrite Hw. cbn.
    split; eexists; reflexivity.
  - apply percentile_doy_total.
Qed.

(** C6.  Two invocations of [percentile_doy] on the same array, window and
    quantile return the same outcome, the same table entry for entry or
    the same error, whatever the order in which each of them meets the
    groups of days and whatever its table holds before the loop; and this
    outcome is the one of [percentile_doy]. *)
Theorem percentile_doy_deterministic :
  forall (arr : DataArray float) (window : Z) (per : Q) (s1 s2 : Schedule),
    admissible s1 -> admissible s2 ->
    invocation dayofyear arr window per s1
    = invocation dayofyear arr window per s2
    /\ invocation dayofyear arr window per s1
       = percentile_doy dayofyear arr window per
    /\ forall table1 table2 d,
         invocation dayofyear arr window per s1 = Ok table1 ->
         invocation dayofyear arr window per s2 = Ok table2 ->
         entry table1 d = entry table2 d.
Proof.
  intros arr window per s1 s2 H1 H2.
  rewrite !invocation_as_written by assumption.
  split; [reflexivity |]. split; [reflexivity |].
  intros table1 table2 d Ht1 Ht2. rewrite Ht1 in Ht2. now inversion Ht2.
Qed.

End Percentiles.

(** Ten days of January in a 365-day calendar, with a window of five. *)
Lemma percentile_doy_pools_neighbouring_positions_witness :
  exists table,
    percentile_doy noleap (ramp 10) 5 (1 # 10) = Ok table
    /\ times table = unique_keys (map noleap (times (ramp 10)))
    /\ forall d q, In (d, q) table ->
         quantile (1 # 10) (pool_by_position noleap (ramp 10) (Z.to_nat 5) d)
         = Ok q.
Proof.
  assert (H : { table | percentile_doy noleap (ramp 10) 5 (1 # 10)
                        = Ok table })
    by (eexists; vm_compute; reflexivity).
  destruct H as [table H]. exists table.
  split; [exact H |].
  exact (percentile_doy_pools_neighbouring_positions noleap
           (ramp 10) 5 (1 # 10) table H).
Defined.

(** C4, against the wording of the specification.  Three years of 365 days
    from January 1st, the value of a day being its rank; window [5],
    quantile [0.1], day of year [1].  The code pools 13 values: December
    30th and 31st of the last year are left out, for no January 1st follows
    them.  Its table holds [1.2] where the quantile of the 15 days from
    December 30th to January 3rd of all years is [1.4]. *)
Lemma percentile_doy_pool_is_not_circular :
  exists table q_code q_doy,
    percentile_doy noleap (ramp 1095) 5 (1 # 10) = Ok table
    /\ In (1%Z, Some q_code) table
    /\ quantile (1 # 10) (pool_by_doy noleap 365 (ramp 1095) 5 1)
       = Ok (Some q_doy)
    /\ q_code == 12 # 10
    /\ q_doy == 14 # 10
    /\ ~ q_code == q_doy
    /\ length (dropna (pool_by_position noleap (ramp 1095) 5 1)) = 13%nat
    /\ length (dropna (pool_by_doy noleap 365 (ramp 1095) 5 1)) = 15%nat.
Proof.
  destruct (percentile_doy_total noleap (ramp 1095) 5 (1 # 10))
    as [table Htable]; [lia | discriminate | split; discriminate |].
  destruct (percentile_doy_table noleap _ _ _ _ Htable) as [Hkeys Hentries].
  assert (Hday : In 1%Z (times table)).
  { rewrite Hkeys. apply (proj2 (unique_keys_in _ 1%Z)).
    exact (in_map noleap (times (ramp 1095)) 0%Z (or_introl eq_refl)). }
  apply in_map_iff in Hday. destruct Hday as [[d q] [Hd Hin]].
  cbn in Hd. subst d.
  pose proof (Hentries _ _ Hin) as Hq.
  vm_compute in Hq. inversion Hq; subst q; clear Hq.
  exists table, (12 # 10), (14 # 10).
  split; [exact Htable |].
  split; [exact Hin |].
  split; [vm_compute; reflexivity |].
  split; [reflexivity |].
  split; [reflexivity |].
  split; [intro H; vm_compute in H; discriminate |].
  split; vm_compute; reflexivity.
Qed.

(** C5, against the claim.  The quantiles [0] and [1] lie outside the open
    interval, yet each returns a table. *)
Lemma percentile_doy_accepts_per_0_and_1 :
  ~ (0 < 0)%Q /\ ~ (1 < 1)%Q
  /\ percentile_doy noleap (ramp 4) 3 0
     = Ok [(1%Z, Some 0); (2%Z, Some 0); (3%Z, Some 1); (4%Z, Some 2)]
  /\ exists table, percentile_doy noleap (ramp 4) 3 1 = Ok table
                   /\ map fst table = [1%Z; 2%Z; 3%Z; 4%Z].
Proof.
  split; [intro H; discriminate H |].
  split; [intro H; discriminate H |].
  split; [vm_compute; reflexivity |].
  eexists. split; vm_compute; reflexivity.
Qed.

(** The cases on ten days of January: a quantile of [1.5], a window of
    [0] for a run statistic and for the percentiles, and the quantile
    [1]. *)
Lemma percentile_doy_argument_checks_witness :
  (exists msg,
      percentile_doy noleap (ramp 10) 5 (3 # 2) = Raise (ValueError msg))
  /\ (exists msg,
      windowed_run_count [true; true; false] 0 = Raise (ValueError msg))
  /\ (exists msg,
      percentile_doy noleap (ramp 10) 0 (1 # 10) = Raise (ValueError msg))
  /\ (exists table, percentile_doy noleap (ramp 10) 5 1 = Ok table).
Proof.
  split; [| split; [| split]].
  - apply (proj1 (percentile_doy_argument_checks noleap (ramp 10) 5 (3 # 2)
                    [true; true; false])).
    right. reflexivity.
  - apply (proj1 (proj2 (percentile_doy_argument_checks noleap (ramp 10) 0
                           (1 # 10) [true; true; false]))).
    lia.
  - apply (proj1 (proj2 (percentile_doy_argument_checks noleap (ramp 10) 0
                           (1 # 10) [true; true; false]))).
    lia.
  - apply (proj2 (proj2 (percentile_doy_argument_checks noleap (ramp 10) 5 1
                           [true; true; false]))).
    + lia.
    + discriminate.
    + split; discriminate.
Defined.

(** The schedule of the code and the one that runs backwards over a table
    of zeros, on ten days of January. *)
Lemma percentile_doy_deterministic_witness :
  admissible as_written /\ admissible backwards
  /\ invocation noleap (ramp 10) 5 (1 # 10) as_written
     = invocation noleap (ramp 10) 5 (1 # 10) backwards.
Proof.
  assert (H1 : admissible as_written).
  { split; [intro g; apply Permutation_refl | intro c].
    unfold as_written, full_like_nan, amap, times. cbn [start].
    rewrite map_map. reflexivity. }
  assert (H2 : admissible backwards).
  { split; [intro g; apply Permutation_rev | intro c].
    unfold backwards, amap, times. cbn [start].
    rewrite map_map. reflexivity. }
  split; [exact H1 |]. split; [exact H2 |].
  exact (proj1 (percentile_doy_deterministic noleap (ramp 10) 5 (1 # 10)
                  as_written backwards H1 H2)).
Defined.

End IndicesFacts.


(** * Properties of [_conversion.py] *)

Module ConversionFacts.
Import Conversion ConversionSpec.

Local Open Scope R_scope.

Lemma Rltb_true (a b : R) : Rltb a b = true <-> a < b.
Proof. unfold Rltb. destruct (Rlt_dec a b); intuition congruence. Qed.

Lemma Rleb_true (a b : R) : Rleb a b = true <-> a <= b.
Proof. unfold Rleb. destruct (Rle_dec a b); intuition congruence. Qed.


(** ** Method dispatch *)

Section Quantities.

Variable convert_quantity : string -> string -> R.

(** C7.  [saturation_vapor_pressure] raises [ValueError] for every label
    outside the eight it knows and returns an array for each of the eight;
    [snowfall_approximation] raises it for every label but ["binary"], and
    with ["binary"] the outcome is the one of the masking: an array when
    precipitation and temperature are on the same index, else the error of
    the alignment.  A raise leaves no result behind. *)
Theorem unknown_method_is_rejected :
  forall (tas pr : DataArray) (ice_thresh : option string)
         (thresh method : string),
    (in_list method svp_methods = false ->
       exists msg,
         saturation_vapor_pressure convert_quantity tas ice_thresh method
         = Raise (ValueError msg))
    /\ (in_list method svp_methods = true ->
       exists e_sat,
         saturation_vapor_pressure convert_quantity tas ice_thresh method
         = Ok e_sat)
    /\ (String.eqb method "binary" = false ->
       exists msg,
         snowfall_approximation convert_quantity pr tas thresh method
         = Raise (ValueError msg))
    /\ (String.eqb method "binary" = true ->
       if Nat.eqb (length (data pr)) (length (data tas))
       then exists prsn,
           snowfall_approximation convert_quantity pr tas thresh method
           = Ok prsn
       else snowfall_approximation convert_quantity pr tas thresh method
            = Raise (ValueError
                       "indexes along dimension 'time' are not equal")).
Proof.
  intros tas pr ice_thresh thresh method.
  unfold saturation_vapor_pressure, snowfall_approximation, where_other,
    in_list, svp_methods.
  rewrite length_map.
  cbn [existsb].
  destruct (String.eqb method "sonntag90"), (String.eqb method "SO90"),
    (String.eqb method "tetens30"), (String.eqb method "TE30"),
    (String.eqb method "goffgratch46"), (String.eqb method "GG46"),
    (String.eqb method "wmo08"), (String.eqb method "WMO08"),
    (String.eqb method "binary");
    cbn; repeat split; intro H; try discriminate H;
    try (eexists; reflexivity);
    destruct (Nat.eqb (length (data pr)) (length (data tas))); cbn;
    try reflexivity; eexists; reflexivity.
Qed.

(** ** Snow and rain *)

Lemma snow_rain_pointwise (thresh : R) (p : list float) :
  forall t : list float,
    length p = length t ->
    let prsn := where_ p (map (fun x => flt x (Some thresh)) t) (Some 0) in
    map2 fadd prsn (map2 fsub p prsn) = p.
Proof.
  induction p as [| a p IH]; intros [| b t] Hlen; cbn in *;
    try reflexivity; try discriminate.
  f_equal.
  - destruct (flt b (Some thresh)); destruct a as [r |]; cbn;
      try reflexivity; f_equal; ring.
  - apply IH. lia.
Qed.

(** C8.  With the ["binary"] method and precipitation and temperature on
    the same index, both approximations return, and snow plus rain is the
    precipitation at every point, NaN where the precipitation is NaN. *)
Theorem snow_plus_rain_is_precipitation :
  forall (pr tas : DataArray) (thresh : string),
    length (data pr) = length (data tas) ->
    exists prsn prlp,
      snowfall_approximation convert_quantity pr tas thresh "binary" = Ok prsn
      /\ rain_approximation convert_quantity pr tas thresh "binary" = Ok prlp
      /\ map2 fadd (data prsn) (data prlp) = data pr.
Proof.
  intros pr tas thresh Hlen.
  unfold rain_approximation, snowfall_approximation, where_other.
  rewrite length_map, Hlen, Nat.eqb_refl. cbn.
  eexists. eexists. split; [reflexivity |]. split; [reflexivity |].
  cbn. apply snow_rain_pointwise. exact Hlen.
Qed.

(** Off a common index neither approximation returns. *)
Lemma misaligned_precipitation_is_refused :
  forall (pr tas : DataArray) (thresh : string),
    length (data pr) <> length (data tas) ->
    (exists msg,
        snowfall_approximation convert_quantity pr tas thresh "binary"
        = Raise (ValueError msg))
    /\ (exists msg,
        rain_approximation convert_quantity pr tas thresh "binary"
        = Raise (ValueError msg)).
Proof.
  intros pr tas thresh Hlen.
  unfold rain_approximation, snowfall_approximation, where_other.
  rewrite length_map. apply Nat.eqb_neq in Hlen. rewrite Hlen. cbn.
  split; eexists; reflexivity.
Qed.

End Quantities.

(** The labels ["magnus"] and ["linear"] are refused, ["wmo08"] and
    ["binary"] are served. *)
Lemma unknown_method_is_rejected_witness :
  (exists msg,
      saturation_vapor_pressure freezing tas_sample None "magnus"
      = Raise (ValueError msg))
  /\ (exists e_sat,
      saturation_vapor_pressure freezing tas_sample None "wmo08" = Ok e_sat)
  /\ (exists msg,
      snowfall_approximation freezing pr_sample tas_sample "0 degC" "linear"
      = Raise (ValueError msg))
  /\ (exists prsn,
      snowfall_approximation freezing pr_sample tas_sample "0 degC" "binary"
      = Ok prsn).
Proof.
  split; [| split; [| split]].
  - apply (proj1 (unknown_method_is_rejected freezing tas_sample pr_sample
                    None "0 degC" "magnus")).
    reflexivity.
  - apply (proj1 (proj2 (unknown_method_is_rejected freezing tas_sample
                           pr_sample None "0 degC" "wmo08"))).
    reflexivity.
  - apply (proj1 (proj2 (proj2 (unknown_method_is_rejected freezing
                                  tas_sample pr_sample None "0 degC"
                                  "linear")))).
    reflexivity.
  - apply (proj2 (proj2 (proj2 (unknown_method_is_rejected freezing
                                  tas_sample pr_sample None "0 degC"
                                  "binary")))).
    reflexivity.
Defined.

(** Two days of precipitation, one of them at 300 K and one at a missing
    temperature. *)
Lemma snow_plus_rain_is_precipitation_witness :
  exists prsn prlp,
    snowfall_approximation freezing pr_sample tas_sample "0 degC" "binary"
    = Ok prsn
    /\ rain_approximation freezing pr_sample tas_sample "0 degC" "binary"
       = Ok prlp
    /\ map2 fadd (data prsn) (data prlp) = data pr_sample.
Proof.
  apply (snow_plus_rain_is_precipitation freezing pr_sample tas_sample
           "0 degC").
  reflexivity.
Defined.


(** ** Relative humidity *)

Lemma clip_within (lo hi a : R) : lo <= hi -> lo <= clip lo hi a <= hi.
Proof.
  intro H. unfold clip, Rmin, Rmax.
  destruct (Rle_dec a lo); destruct (Rle_dec _ hi); lra.
Qed.

Lemma clipped_in_0_100 (l : list float) :
  Forall in_0_100 (map (lift1 (clip 0 100)) l).
Proof.
  induction l as [| [r |] l IH]; cbn; constructor; try assumption.
  - cbn. apply clip_within. lra.
  - exact I.
Qed.

Lemma masked_in_0_100 (l : list float) :
  Forall in_0_100
    (where_ l (map (fun x => fle x (Some 100) && fge x (Some 0)) l) None).
Proof.
  induction l as [| a l IH]; cbn; constructor; try assumption.
  destruct a as [r |]; cbn; [| exact I].
  destruct (Rleb r 100) eqn:E1; destruct (Rleb 0 r) eqn:E2; cbn;
    try exact I.
  apply Rleb_true in E1. apply Rleb_true in E2. lra.
Qed.

Section Humidity.

Variable convert_units_to : DataArray -> string -> DataArray.
Variable convert_quantity : string -> string -> R.

(** C9.  Whatever the inputs and the method, a value that
    [relative_humidity] returns under ["clip"] lies between [0] and [100]
    unless it is NaN, and so does one returned under ["mask"]. *)
Theorem relative_humidity_within_0_100 :
  forall (tas : DataArray) (dtas huss ps : option DataArray)
         (ice_thresh : option string) (method : string) (rh : DataArray),
    (relative_humidity convert_units_to convert_quantity tas dtas huss ps
       ice_thresh method (Some "clip"%string) = Ok rh ->
     Forall in_0_100 (data rh))
    /\ (relative_humidity convert_units_to convert_quantity tas dtas huss ps
          ice_thresh method (Some "mask"%string) = Ok rh ->
        Forall in_0_100 (data rh)).
Proof.
  intros tas dtas huss ps ice_thresh method rh.
  unfold relative_humidity.
  match goal with
  | |- context [bind ?r _] => destruct r as [rh0 | e]
  end; cbn; split; intro H; try discriminate H;
    inversion H; subst rh; cbn.
  - apply clipped_in_0_100.
  - apply masked_in_0_100.
Qed.

End Humidity.

(** Temperature and dew point given, default method, one missing day. *)
Lemma relative_humidity_within_0_100_witness :
  (exists rh,
      relative_humidity same_units freezing tas_sample (Some dtas_sample)
        None None None "sonntag90" (Some "clip"%string) = Ok rh
      /\ Forall in_0_100 (data rh))
  /\ (exists rh,
      relative_humidity same_units freezing tas_sample (Some dtas_sample)
        None None None "sonntag90" (Some "mask"%string) = Ok rh
      /\ Forall in_0_100 (data rh)).
Proof.
  split.
  - assert (H : { rh | relative_humidity same_units freezing tas_sample
                         (Some dtas_sample) None None None "sonntag90"
                         (Some "clip"%string) = Ok rh })
      by (eexists; reflexivity).
    destruct H as [rh H]. exists rh. split; [exact H |].
    exact (proj1 (relative_humidity_within_0_100 same_units freezing
                    _ _ _ _ _ _ rh) H).
  - assert (H : { rh | relative_humidity same_units freezing tas_sample
                         (Some dtas_sample) None None None "sonntag90"
                         (Some "mask"%string) = Ok rh })
      by (eexists; reflexivity).
    destruct H as [rh H]. exists rh. split; [exact H |].
    exact (proj2 (relative_humidity_within_0_100 same_units freezing
                    _ _ _ _ _ _ rh) H).
Defined.

(** ** Wind direction *)







Section Wind.

Variable convert_units_to : DataArray -> string -> DataArray.
Variable convert_quantity : string -> string -> R.


End Wind.


End ConversionFacts.

(** * Properties of the other indices *)

Module Indices2Facts.
Import Indices Indices2 IndicesSpec Indices2Spec IndicesFacts.

Local Open Scope Z_scope.

(** ** Counting days *)

Lemma Forall2_map_same {A B C : Type} (R : B -> C -> Prop) (f : A -> B)
  (g : A -> C) (l : list A) :
  (forall x, In x l -> R (f x) (g x)) -> Forall2 R (map f l) (map g l).
Proof.
  induction l as [| a l IH]; intro H; cbn; constructor.
  - apply H. now left.
  - apply IH. intros x Hx. apply H. now right.
Qed.

Lemma total_b2z_bounds (bs : list bool) :
  0 <= total (map b2z bs) <= Z.of_nat (length bs).
Proof.
  induction bs as [| b bs IH]; cbn [map total fold_right length].
  - lia.
  - fold (total (map b2z bs)). destruct b; cbn [b2z]; lia.
Qed.

Lemma longest_scan_counted (xs : list bool) :
  forall pos cur,
    Z.of_nat (fold_right Nat.max 0%nat (map run_len (scan pos cur xs)))
    <= Z.of_nat (open_len cur) + total (map b2z xs).
Proof.
  induction xs as [| x xs IH]; intros pos cur.
  - destruct cur; cbn; lia.
  - pose proof (total_b2z_bounds xs) as Hb. unfold total in *.
    destruct x; cbn [scan map fold_right b2z].
    + specialize (IH (S pos)
        (Some match cur with
              | Some r => mkRun (run_start r) (S (run_len r))
              | None => mkRun pos 1
              end)).
      destruct cur; cbn [open_len run_len] in *; lia.
    + specialize (IH (S pos) None).
      destruct cur as [r |]; cbn [open_len run_len map fold_right] in *; lia.
Qed.

(** The longest run is no longer than the number of [True] entries. *)
Lemma longest_run_le_count (xs : list bool) :
  Z.of_nat (longest_run xs) <= total (map b2z xs).
Proof.
  unfold longest_run, runs.
  pose proof (longest_scan_counted xs 0 None). cbn in *. lia.
Qed.

Lemma resample_sum_amap {A : Type} (f : A -> Z) (freq : Freq)
  (a : DataArray A) :
  resample_sum freq (amap f a)
  = map (fun pg => (fst pg, total (map f (values (snd pg)))))
        (resample freq a).
Proof.
  unfold resample_sum. rewrite resample_amap, map_map.
  apply map_ext. intros [p g]. cbn [fst snd]. f_equal.
  unfold values, amap. rewrite !map_map. reflexivity.
Qed.

Lemma consecutive_days_some_day {A : Type} (a : DataArray A) :
  consecutive_days a -> a <> [].
Proof.
  intros (t0 & n & H) ->. discriminate H.
Qed.

(** X1.  On a series of consecutive days [CFD2] returns, and in every
    period the longest run of frost days that it reports is at most the
    number of frost days that [FD] reports, which is at most the number of
    days of the period. *)
Theorem CFD2_le_FD_le_period_length :
  forall (tasmin : DataArray float) (freq : Freq),
    consecutive_days tasmin ->
    exists cfd,
      CFD2 tasmin freq = Ok cfd
      /\ Forall2 (fun c f => fst c = fst f /\ Z.of_nat (snd c) <= snd f)
                 cfd (FD tasmin freq)
      /\ Forall2 (fun f pg =>
                    fst f = fst pg
                    /\ 0 <= snd f <= Z.of_nat (length (snd pg)))
                 (FD tasmin freq) (resample freq tasmin).
Proof.
  intros tasmin freq Hdays.
  rewrite CFD2_period_local by (apply consecutive_days_some_day; exact Hdays).
  eexists. split; [reflexivity |].
  unfold FD. rewrite resample_sum_amap. split.
  - apply Forall2_map_same. intros [p g] _. cbn [fst snd].
    split; [reflexivity |].
    rewrite <- (map_map (fun x => lt x K2C) b2z).
    apply longest_run_le_count.
  - rewrite <- (map_id (resample freq tasmin)) at 2.
    apply Forall2_map_same. intros [p g] _. cbn [fst snd].
    split; [reflexivity |].
    rewrite <- (map_map (fun x => lt x K2C) b2z).
    pose proof (total_b2z_bounds (map (fun x => lt x K2C) (values g))) as H.
    unfold values in *. rewrite !length_map in H. exact H.
Qed.

Lemma total_app (l m : list Z) : total (l ++ m) = total l + total m.
Proof.
  induction l as [| x l IH]; cbn [app total fold_right].
  - reflexivity.
  - fold (total (l ++ m)) (total l). lia.
Qed.

Lemma total_concat (ls : list (list Z)) :
  total (concat ls) = total (map total ls).
Proof.
  induction ls as [| l ls IH]; [reflexivity |].
  cbn [concat map]. rewrite total_app, IH. reflexivity.
Qed.

(** Resampling conserves a total: the sums of the periods add up to the sum
    of the series. *)
Lemma resample_sum_total (freq : Freq) (a : DataArray Z) :
  total (values (resample_sum freq a)) = total (values a).
Proof.
  unfold resample_sum, values. rewrite map_map. cbn [snd].
  rewrite <- (resample_concat freq a) at 2.
  rewrite concat_map, total_concat, !map_map. reflexivity.
Qed.

(** X2.  Whatever the frequency, the counts of the periods add up to the
    count over the whole series: of frost days for [FD], of ice days for
    [ID], of days above the threshold for [hotdays] and for
    [cooling_degree_days]. *)
Theorem day_counts_add_up :
  forall (t : DataArray float) (thresh : Q) (freq : Freq),
    total (values (FD t freq))
    = total (map (fun x => b2z (lt x K2C)) (values t))
    /\ total (values (ID t freq))
       = total (map (fun x => b2z (lt x K2C)) (values t))
    /\ total (values (hotdays t thresh freq))
       = total (map (fun x => b2z (gt x (K2C + thresh))) (values t))
    /\ total (values (cooling_degree_days t thresh freq))
       = total (map (fun x => b2z (gt x (K2C + thresh))) (values t)).
Proof.
  intros t thresh freq.
  unfold FD, ID, hotdays, cooling_degree_days.
  rewrite !resample_sum_total. unfold values, amap. rewrite !map_map.
  repeat split; reflexivity.
Qed.

Lemma gt_antitone (x : float) (c1 c2 : Q) :
  (c1 <= c2)%Q -> gt x c2 = true -> gt x c1 = true.
Proof.
  intros Hc. destruct x as [v |]; cbn; [| discriminate].
  rewrite !Qlt_bool_iff. intro H. eapply Qle_lt_trans; eassumption.
Qed.

Lemma total_le_pointwise {A : Type} (f g : A -> Z) (l : list A) :
  (forall x, f x <= g x) -> total (map f l) <= total (map g l).
Proof.
  intro H. induction l as [| a l IH]; cbn [map total fold_right]; [lia |].
  fold (total (map f l)) (total (map g l)). specialize (H a). lia.
Qed.

(** X3.  Raising the threshold never adds hot days: in every period
    [hotdays] at the higher threshold is at most [hotdays] at the lower
    one. *)
Theorem hotdays_antitone_in_thresh :
  forall (tasmax : DataArray float) (thresh1 thresh2 : Q) (freq : Freq),
    (thresh1 <= thresh2)%Q ->
    Forall2 (fun hi lo => fst hi = fst lo /\ snd hi <= snd lo)
            (hotdays tasmax thresh2 freq) (hotdays tasmax thresh1 freq).
Proof.
  intros tasmax thresh1 thresh2 freq Hle.
  unfold hotdays. rewrite !resample_sum_amap.
  apply Forall2_map_same. intros [p g] _. cbn [fst snd].
  split; [reflexivity |].
  apply total_le_pointwise. intro x.
  destruct (gt x (K2C + thresh2)) eqn:E2.
  - rewrite (gt_antitone x (K2C + thresh1) (K2C + thresh2)); [lia | | exact E2].
    apply Qplus_le_r. exact Hle.
  - destruct (gt x (K2C + thresh1)); cbn; lia.
Qed.

(** ** Two arrays on the same timestamps *)

Lemma sel_head {A : Type} (t : Z) (y : A) (b : DataArray A) :
  sel t ((t, y) :: b) = Some y.
Proof. cbn. now rewrite Z.eqb_refl. Qed.

Lemma sel_tail {A : Type} (t t' : Z) (y : A) (b : DataArray A) :
  t' <> t -> sel t ((t', y) :: b) = sel t b.
Proof.
  intro H. cbn. destruct (t' =? t) eqn:E; [| reflexivity].
  apply Z.eqb_eq in E. contradiction.
Qed.

Lemma flat_map_ext_in {A B : Type} (f g : A -> list B) (l : list A) :
  (forall x, In x l -> f x = g x) -> flat_map f l = flat_map g l.
Proof.
  induction l as [| a l IH]; intro H; [reflexivity |].
  cbn. rewrite (H a) by now left. f_equal. apply IH.
  intros x Hx. apply H. now right.
Qed.

(** On the same, distinct timestamps the inner join keeps every element
    and pairs the arrays position by position. *)
Lemma binop_pair_up {A B C : Type} (f : A -> B -> C) (a : DataArray A) :
  forall b : DataArray B,
    times a = times b -> NoDup (times a) ->
    binop f a b = amap (fun xy => f (fst xy) (snd xy)) (pair_up a b).
Proof.
  induction a as [| [t x] a IH]; intros [| [t' y] b] Ht Hnd;
    cbn in Ht; try discriminate; [reflexivity |].
  inversion Ht; subst t'. inversion Hnd as [| ? ? Hnotin Hnd']; subst.
  change (pair_up ((t, x) :: a) ((t, y) :: b))
    with ((t, (x, y)) :: pair_up a b).
  change (amap (fun xy => f (fst xy) (snd xy)) ((t, (x, y)) :: pair_up a b))
    with ((t, f x y)
          :: amap (fun xy => f (fst xy) (snd xy)) (pair_up a b)).
  rewrite <- (IH b) by assumption.
  unfold binop. cbn [flat_map fst snd]. rewrite sel_head.
  cbn [app]. f_equal.
  apply flat_map_ext_in. intros [t1 x1] Hin. cbn [fst snd].
  rewrite sel_tail; [reflexivity |].
  intro Heq. subst t1. apply Hnotin.
  unfold times. apply in_map_iff. exists (t, x1). split; [reflexivity | assumption].
Qed.

Lemma pair_up_left {A B : Type} (a : DataArray A) :
  forall b : DataArray B,
    times a = times b -> amap fst (pair_up a b) = a.
Proof.
  induction a as [| [t x] a IH]; intros [| [t' y] b] Ht;
    cbn in Ht; try discriminate; [reflexivity |].
  inversion Ht. cbn. f_equal. apply IH. assumption.
Qed.

Lemma pair_up_right {A B : Type} (a : DataArray A) :
  forall b : DataArray B,
    times a = times b -> amap snd (pair_up a b) = b.
Proof.
  induction a as [| [t x] a IH]; intros [| [t' y] b] Ht;
    cbn in Ht; try discriminate; [reflexivity |].
  inversion Ht; subst. cbn. f_equal. apply IH. assumption.
Qed.

Lemma pair_up_amap {A B A' B' : Type} (f : A -> A') (g : B -> B')
  (a : DataArray A) :
  forall b : DataArray B,
    pair_up (amap f a) (amap g b)
    = amap (fun xy => (f (fst xy), g (snd xy))) (pair_up a b).
Proof.
  induction a as [| [t x] a IH]; intros [| [t' y] b]; try reflexivity.
  cbn. f_equal. apply IH.
Qed.

Lemma amap_amap {A B C : Type} (f : A -> B) (g : B -> C) (a : DataArray A) :
  amap g (amap f a) = amap (fun x => g (f x)) a.
Proof. unfold amap. rewrite map_map. reflexivity. Qed.

Lemma times_amap {A B : Type} (f : A -> B) (a : DataArray A) :
  times (amap f a) = times a.
Proof. unfold times, amap. rewrite map_map. reflexivity. Qed.

Lemma gt_plus_0 (x : float) : gt x (K2C + 0) = gt x K2C.
Proof.
  destruct x as [v |]; reflexivity.
Qed.

Lemma freezethaw_paired (tasmax tasmin : DataArray float) (freq : Freq) :
  times tasmax = times tasmin -> NoDup (times tasmin) ->
  daily_freezethaw_cycles tasmax tasmin freq
  = resample_sum freq
      (amap (fun xy : float * float =>
               b2z (lt (fst xy) K2C && gt (snd xy) K2C))
            (pair_up tasmin tasmax)).
Proof.
  intros Ht Hnd. unfold daily_freezethaw_cycles.
  rewrite (binop_pair_up andb (amap (fun x => lt x K2C) tasmin)
             (amap (fun x => gt x K2C) tasmax));
    [| rewrite !times_amap; now symmetry | rewrite times_amap; assumption].
  rewrite pair_up_amap, !amap_amap. reflexivity.
Qed.

(** X4.  When the two temperature series are on the same, distinct
    timestamps, the freeze-thaw days of a period are at most its frost days
    ([FD] of the minimum) and at most its days with a maximum above 0 ℃
    ([hotdays] of the maximum at threshold [0]). *)
Theorem freezethaw_le_frost_and_thaw_days :
  forall (tasmax tasmin : DataArray float) (freq : Freq),
    times tasmax = times tasmin -> NoDup (times tasmin) ->
    Forall2 (fun ft fd => fst ft = fst fd /\ 0 <= snd ft <= snd fd)
            (daily_freezethaw_cycles tasmax tasmin freq) (FD tasmin freq)
    /\ Forall2 (fun ft hd => fst ft = fst hd /\ 0 <= snd ft <= snd hd)
               (daily_freezethaw_cycles tasmax tasmin freq)
               (hotdays tasmax 0 freq).
Proof.
  intros tasmax tasmin freq Ht Hnd.
  rewrite freezethaw_paired by assumption.
  replace (FD tasmin freq)
    with (FD (amap fst (pair_up tasmin tasmax)) freq)
    by (rewrite pair_up_left; [reflexivity | now symmetry]).
  replace (hotdays tasmax 0 freq)
    with (hotdays (amap snd (pair_up tasmin tasmax)) 0 freq)
    by (rewrite pair_up_right; [reflexivity | now symmetry]).
  unfold FD, hotdays. rewrite !amap_amap, !resample_sum_amap.
  assert (Hb : forall g : DataArray (float * float),
            0 <= total (map (fun xy : float * float =>
                               b2z (lt (fst xy) K2C && gt (snd xy) K2C))
                            (values g))).
  { intro g.
    pose proof (total_b2z_bounds
        (map (fun xy : float * float =>
                lt (fst xy) K2C && gt (snd xy) K2C) (values g))) as H.
    rewrite map_map in H. apply H. }
  split; apply Forall2_map_same; intros [p g] _; cbn [fst snd];
    (split; [reflexivity |]); (split; [apply Hb |]);
    apply total_le_pointwise; intros [x y]; cbn [fst snd];
    change (K2C + 0)%Q with K2C;
    destruct (lt x K2C), (gt y K2C); cbn; lia.
Qed.

(** ** Degree days *)

Section DegreeDays.

Import Lqa.
Local Open Scope Q_scope.

Lemma Qsum_nonneg (l : list Q) : Forall (fun v => 0 <= v) l -> 0 <= Qsum l.
Proof.
  induction 1 as [| v l Hv Hl IH]; cbn; [lra |].
  fold (Qsum l). lra.
Qed.

Lemma Qsum_zero_iff (l : list Q) :
  Forall (fun v => 0 <= v) l ->
  (Qsum l == 0 <-> Forall (fun v => v == 0) l).
Proof.
  induction 1 as [| v l Hv Hl IH]; cbn.
  - split; [constructor | reflexivity].
  - fold (Qsum l). pose proof (Qsum_nonneg l Hl) as Hs. split.
    + intro H. constructor; [lra | apply IH; lra].
    + intro H. inversion H as [| ? ? Hv0 Hl0]; subst.
      apply IH in Hl0. lra.
Qed.

Lemma dropna_map (g : Q -> Q) (l : list float) :
  dropna (map (fun x => match x with Some v => Some (g v) | None => None end)
              l)
  = map g (dropna l).
Proof.
  induction l as [| [v |] l IH]; cbn; [reflexivity | now f_equal | exact IH].
Qed.

Lemma Forall_dropna (P : Q -> Prop) (l : list float) :
  Forall P (dropna l)
  <-> Forall (fun x => match x with Some v => P v | None => True end) l.
Proof.
  induction l as [| [v |] l IH]; cbn.
  - split; constructor.
  - split; intro H; inversion H; subst; constructor; tauto.
  - split; intro H.
    + constructor; [exact I | tauto].
    + inversion H; subst. tauto.
Qed.

Lemma growing_nonneg (thresh v : Q) : 0 <= growing thresh v.
Proof.
  unfold growing. destruct (Qlt_bool v thresh) eqn:E; [lra |].
  assert (~ v < thresh) by (rewrite <- Qlt_bool_iff; congruence). lra.
Qed.

Lemma growing_zero (thresh v : Q) :
  growing thresh v == 0 <-> gt (Some v) thresh = false.
Proof.
  unfold growing, gt.
  destruct (Qlt_bool thresh v) eqn:E1; destruct (Qlt_bool v thresh) eqn:E2;
    try apply Qlt_bool_iff in E1; try apply Qlt_bool_iff in E2.
  - lra.
  - split; [lra | discriminate].
  - split; [reflexivity | lra].
  - assert (~ thresh < v) by (rewrite <- Qlt_bool_iff; congruence).
    assert (~ v < thresh) by (rewrite <- Qlt_bool_iff; congruence).
    split; [reflexivity | lra].
Qed.

Lemma heating_nonneg (thresh v : Q) : 0 <= heating thresh v.
Proof.
  unfold heating. destruct (Qlt_bool (thresh - v) 0) eqn:E; [lra |].
  assert (~ thresh - v < 0) by (rewrite <- Qlt_bool_iff; congruence). lra.
Qed.

Lemma heating_zero (thresh v : Q) :
  heating thresh v == 0 <-> lt (Some v) thresh = false.
Proof.
  unfold heating, lt.
  destruct (Qlt_bool v thresh) eqn:E1;
    destruct (Qlt_bool (thresh - v) 0) eqn:E2;
    try apply Qlt_bool_iff in E1; try apply Qlt_bool_iff in E2.
  - lra.
  - split; [lra | discriminate].
  - split; [reflexivity | lra].
  - assert (~ v < thresh) by (rewrite <- Qlt_bool_iff; congruence).
    assert (~ thresh - v < 0) by (rewrite <- Qlt_bool_iff; congruence).
    split; [reflexivity | lra].
Qed.

Lemma resample_reduce_amap {A : Type} (reduce : list float -> float)
  (f : A -> float) (freq : Freq) (a : DataArray A) :
  resample_reduce reduce freq (amap f a)
  = map (fun pg => (fst pg, reduce (map f (values (snd pg)))))
        (resample freq a).
Proof.
  unfold resample_reduce. rewrite resample_amap, map_map.
  apply map_ext. intros [p g]. cbn [fst snd]. f_equal. f_equal.
  unfold values, amap. rewrite !map_map. reflexivity.
Qed.

(** The sum of a period, from what each day adds. *)
Lemma period_sum (g : Q -> Q) (P : float -> bool) (l : list float) :
  (forall v, 0 <= g v) ->
  (forall v, g v == 0 <-> P (Some v) = false) ->
  P None = false ->
  exists s,
    nansum (map (fun x => match x with
                          | Some v => Some (g v)
                          | None => None
                          end) l) = Some s
    /\ 0 <= s
    /\ (s == 0 <-> Forall (fun x => P x = false) l).
Proof.
  intros Hnn Hz Hnan. unfold nansum. rewrite dropna_map.
  eexists. split; [reflexivity |]. fold (Qsum (map g (dropna l))).
  assert (Hall : Forall (fun v => 0 <= v) (map g (dropna l))).
  { apply Forall_map. apply Forall_forall. intros v _. apply Hnn. }
  split; [apply Qsum_nonneg; exact Hall |].
  rewrite (Qsum_zero_iff _ Hall), Forall_map, Forall_dropna.
  split; intro H; eapply Forall_impl; try exact H;
    intros [v |]; cbn; try tauto; try apply Hz.
Qed.

(** X5.  On a series of consecutive days the degree-day sums of the
    periods are numbers and never negative.  [GD4] of a period is zero
    exactly when none of its days is above 4 ℃, and [HD] exactly when none
    is below the threshold; a day whose temperature is NaN adds nothing. *)
Theorem degree_days_nonnegative :
  forall (tas : DataArray float) (freq : Freq) (thresh : Q),
    consecutive_days tas ->
    Forall2 (fun gd pg =>
               fst gd = fst pg
               /\ exists s, snd gd = Some s /\ 0 <= s
                  /\ (s == 0 <->
                      Forall (fun x => gt x (4 + K2C) = false)
                             (values (snd pg))))
            (GD4 tas freq) (resample freq tas)
    /\ Forall2 (fun hd pg =>
                  fst hd = fst pg
                  /\ exists s, snd hd = Some s /\ 0 <= s
                     /\ (s == 0 <->
                         Forall (fun x => lt x (thresh + K2C) = false)
                                (values (snd pg))))
               (HD tas freq thresh) (resample freq tas).
Proof.
  intros tas freq thresh _. unfold GD4, HD.
  rewrite !resample_reduce_amap. split.
  - rewrite <- (map_id (resample freq tas)) at 2.
    apply Forall2_map_same. intros [p g] _. cbn [fst snd].
    split; [reflexivity |].
    rewrite (map_ext _ (fun x => match x with
                                 | Some v => Some (growing (4 + K2C) v)
                                 | None => None
                                 end))
      by (intros [v |]; reflexivity).
    apply (period_sum (growing (4 + K2C)) (fun x => gt x (4 + K2C))).
    + apply growing_nonneg.
    + apply growing_zero.
    + reflexivity.
  - rewrite <- (map_id (resample freq tas)) at 2.
    apply Forall2_map_same. intros [p g] _. cbn [fst snd].
    split; [reflexivity |].
    rewrite (map_ext _ (fun x => match x with
                                 | Some v => Some (heating (thresh + K2C) v)
                                 | None => None
                                 end))
      by (intros [v |]; reflexivity).
    apply (period_sum (heating (thresh + K2C))
             (fun x => lt x (thresh + K2C))).
    + apply heating_nonneg.
    + apply heating_zero.
    + reflexivity.
Qed.

End DegreeDays.

(** ** Percentiles *)

Section Quantiles.

Import Lqa.
Local Open Scope Q_scope.

Lemma in_insert_sorted (y : Q) (l : list Q) :
  forall x, In x (insert_sorted y l) <-> x = y \/ In x l.
Proof.
  induction l as [| z l IH]; intro x; cbn.
  - intuition congruence.
  - destruct (Qle_bool y z); cbn; [| rewrite IH]; intuition congruence.
Qed.

Lemma in_sort (l : list Q) : forall x, In x (sort l) <-> In x l.
Proof.
  induction l as [| y l IH]; intro x; cbn; [reflexivity |].
  fold (sort l). rewrite in_insert_sorted, IH. intuition congruence.
Qed.

Lemma in_dropna (l : list float) (v : Q) : In v (dropna l) <-> In (Some v) l.
Proof.
  induction l as [| [w |] l IH]; cbn; [reflexivity | |].
  - rewrite IH. intuition congruence.
  - rewrite IH. intuition congruence.
Qed.

(** The interpolation weight and the two ranks of a quantile. *)
Lemma quantile_ranks (per : Q) (n1 : nat) :
  0 <= per <= 1 ->
  let h := per * inject_Z (Z.of_nat n1) in
  let lo := Z.to_nat (Qfloor h) in
  (lo <= n1)%nat
  /\ 0 <= h - inject_Z (Z.of_nat lo) <= 1.
Proof.
  intros [H0 H1] h lo.
  assert (Hn : 0 <= inject_Z (Z.of_nat n1)).
  { change 0 with (inject_Z 0). rewrite <- Zle_Qle. lia. }
  assert (Hh0 : 0 <= h) by (apply Qmult_le_0_compat; assumption).
  assert (Hh1 : h <= inject_Z (Z.of_nat n1)).
  { unfold h.
    assert (per * inject_Z (Z.of_nat n1) <= 1 * inject_Z (Z.of_nat n1))
      by (apply Qmult_le_compat_r; assumption).
    lra. }
  assert (Hf0 : (0 <= Qfloor h)%Z).
  { change 0%Z with (Qfloor 0). apply Qfloor_resp_le. exact Hh0. }
  assert (Hf1 : (Qfloor h <= Z.of_nat n1)%Z).
  { rewrite <- (Qfloor_Z (Z.of_nat n1)). apply Qfloor_resp_le. exact Hh1. }
  split; [unfold lo; lia |].
  unfold lo. rewrite Z2Nat.id by exact Hf0.
  pose proof (Qfloor_le h) as Hle. pose proof (Qlt_floor h) as Hlt.
  rewrite inject_Z_plus in Hlt. change (inject_Z 1) with 1 in Hlt. lra.
Qed.

Lemma quantile_accepts (per : Q) (pool : list float) (q : float) :
  quantile per pool = Ok q -> 0 <= per <= 1.
Proof.
  unfold quantile. intro H.
  destruct (Qlt_bool per 0) eqn:E0; [discriminate |].
  destruct (Qlt_bool 1 per) eqn:E1; [discriminate |].
  assert (~ per < 0) by (rewrite <- Qlt_bool_iff; congruence).
  assert (~ 1 < per) by (rewrite <- Qlt_bool_iff; congruence).
  lra.
Qed.

(** A quantile lies between any two bounds of the pooled values. *)
Lemma quantile_between (per lo hi : Q) (pool : list float) (q : Q) :
  quantile per pool = Ok (Some q) ->
  (forall v, In (Some v) pool -> lo <= v <= hi) ->
  lo <= q <= hi.
Proof.
  intros Hq Hpool.
  pose proof (quantile_accepts _ _ _ Hq) as Hper.
  unfold quantile in Hq.
  destruct (Qlt_bool per 0 || Qlt_bool 1 per); [discriminate |].
  assert (Hs : forall v, In v (sort (dropna pool)) -> lo <= v <= hi).
  { intros v Hv. apply Hpool. apply in_dropna. apply in_sort. exact Hv. }
  destruct (sort (dropna pool)) as [| x xs] eqn:Es; [discriminate |].
  set (s := x :: xs) in *.
  assert (Hlen : (length s - 1 < length s)%nat) by (subst s; cbn; lia).
  destruct (quantile_ranks per (length s - 1) Hper) as [Hlo Hf].
  cbv zeta in Hlo, Hf.
  set (h := per * inject_Z (Z.of_nat (length s - 1))) in *.
  set (i := Z.to_nat (Qfloor h)) in *.
  injection Hq as Hq'.
  set (a := nth i s 0) in *.
  set (b := nth (Nat.min (S i) (length s - 1)) s 0) in *.
  assert (Ha : lo <= a <= hi) by (apply Hs, nth_In; lia).
  assert (Hb : lo <= b <= hi) by (apply Hs, nth_In; lia).
  set (f := h - inject_Z (Z.of_nat i)) in *.
  subst q. change (lo <= a + f * (b - a) <= hi).
  assert (0 <= (1 - f) * (a - lo)) by (apply Qmult_le_0_compat; lra).
  assert (0 <= f * (b - lo)) by (apply Qmult_le_0_compat; lra).
  assert (0 <= (1 - f) * (hi - a)) by (apply Qmult_le_0_compat; lra).
  assert (0 <= f * (hi - b)) by (apply Qmult_le_0_compat; lra).
  split; lra.
Qed.

Lemma value_at_in (arr : DataArray float) (w i k : nat) (v : Q) :
  value_at arr w i k = Some v -> In (Some v) (values arr).
Proof.
  unfold value_at. destruct (w / 2 <=? i + k)%nat; [| discriminate].
  intro H.
  destruct (Nat.lt_ge_cases (i + k - w / 2) (length (values arr)))
    as [Hin | Hout].
  - rewrite <- H. apply nth_In. exact Hin.
  - rewrite nth_overflow in H by exact Hout. discriminate.
Qed.

Lemma pool_in_values (dayofyear : Z -> Z) (arr : DataArray float) (w : nat)
  (d : Z) (v : Q) :
  In (Some v) (pool_by_position dayofyear arr w d) ->
  In (Some v) (values arr).
Proof.
  unfold pool_by_position, window_at. intro H.
  apply in_concat in H. destruct H as [row [Hrow Hv]].
  apply in_map_iff in Hrow. destruct Hrow as [i [<- _]].
  apply in_map_iff in Hv. destruct Hv as [k [Hk _]].
  exact (value_at_in _ _ _ _ _ Hk).
Qed.

(** X8.  Every entry of the table of [percentile_doy] lies within the range
    of the data: between any two bounds of the values of the series that
    are not NaN. *)
Theorem percentile_within_data_range :
  forall (dayofyear : Z -> Z) (arr : DataArray float) (window : Z)
         (per lo hi : Q) (table : DataArray float),
    percentile_doy dayofyear arr window per = Ok table ->
    (forall v, In (Some v) (values arr) -> lo <= v <= hi) ->
    forall d q, In (d, Some q) table -> lo <= q <= hi.
Proof.
  intros dayofyear arr window per lo hi table Htable Hrange d q Hin.
  destruct (percentile_doy_table _ _ _ _ _ Htable) as [_ Hentries].
  apply (quantile_between per lo hi _ q (Hentries _ _ Hin)).
  intros v Hv. apply Hrange. exact (pool_in_values _ _ _ _ _ Hv).
Qed.

End Quantiles.

(** ** Extremes *)

Section Extremes.

Import Lqa.
Local Open Scope Q_scope.

Lemma Qmin2_le (x y : Q) : Qmin2 x y <= x /\ Qmin2 x y <= y.
Proof.
  unfold Qmin2. destruct (Qle_bool x y) eqn:E.
  - apply Qle_bool_iff in E. lra.
  - assert (~ x <= y) by (rewrite <- Qle_bool_iff; congruence). lra.
Qed.

Lemma Qmax2_ge (x y : Q) : x <= Qmax2 x y /\ y <= Qmax2 x y.
Proof.
  unfold Qmax2. destruct (Qle_bool x y) eqn:E.
  - apply Qle_bool_iff in E. lra.
  - assert (~ x <= y) by (rewrite <- Qle_bool_iff; congruence). lra.
Qed.

Lemma fold_min (vs : list Q) :
  forall v,
    In (fold_right Qmin2 v vs) (v :: vs)
    /\ forall x, In x (v :: vs) -> fold_right Qmin2 v vs <= x.
Proof.
  induction vs as [| w vs IH]; intro v; cbn [fold_right].
  - split; [now left |]. intros x [<- | []]. lra.
  - destruct (IH v) as [Hin Hle].
    set (m := fold_right Qmin2 v vs) in *.
    destruct (Qmin2_le w m) as [H1 H2]. split.
    + unfold Qmin2. destruct (Qle_bool w m).
      * right. now left.
      * destruct Hin as [Hin | Hin]; [now left | right; now right].
    + intros x [<- | [<- | Hx]].
      * apply (Qle_trans _ m); [exact H2 | apply Hle; now left].
      * exact H1.
      * apply (Qle_trans _ m); [exact H2 | apply Hle; now right].
Qed.

Lemma fold_max (vs : list Q) :
  forall v,
    In (fold_right Qmax2 v vs) (v :: vs)
    /\ forall x, In x (v :: vs) -> x <= fold_right Qmax2 v vs.
Proof.
  induction vs as [| w vs IH]; intro v; cbn [fold_right].
  - split; [now left |]. intros x [<- | []]. lra.
  - destruct (IH v) as [Hin Hle].
    set (m := fold_right Qmax2 v vs) in *.
    destruct (Qmax2_ge w m) as [H1 H2]. split.
    + unfold Qmax2. destruct (Qle_bool w m).
      * destruct Hin as [Hin | Hin]; [now left | right; now right].
      * right. now left.
    + intros x [<- | [<- | Hx]].
      * apply (Qle_trans _ m); [apply Hle; now left | exact H2].
      * exact H1.
      * apply (Qle_trans _ m); [apply Hle; now right | exact H2].
Qed.

(** Over one period: the minimum and the maximum are values of the period
    that bound the others, or both are NaN. *)
Lemma extremes_of_period (l : list float) :
  least_of (nanmin l) l /\ greatest_of (nanmax l) l
  /\ float_le (nanmin l) (nanmax l).
Proof.
  unfold nanmin, nanmax, least_of, greatest_of.
  destruct (dropna l) as [| v vs] eqn:E.
  - cbn [float_le]. repeat split; intros v Hv;
      apply in_dropna in Hv; rewrite E in Hv; destruct Hv.
  - destruct (fold_min vs v) as [Hmin_in Hmin_le].
    destruct (fold_max vs v) as [Hmax_in Hmax_le].
    rewrite <- E in Hmin_in, Hmin_le, Hmax_in, Hmax_le.
    repeat split.
    + apply in_dropna. exact Hmin_in.
    + intros x Hx. apply Hmin_le, in_dropna. exact Hx.
    + apply in_dropna. exact Hmax_in.
    + intros x Hx. apply Hmax_le, in_dropna. exact Hx.
    + cbn [float_le]. apply Hmax_le. exact Hmin_in.
Qed.

(** X6.  In every period the minimum that [TNn] and [TXn] report is one of
    the values of the period and at most each of them, the maximum that
    [TNx] and [TXx] report is one of them and at least each of them, and
    the minimum is at most the maximum; both are NaN when the period has no
    value that is not NaN, and only then. *)
Theorem extremes_are_values_of_the_period :
  forall (tasmin tasmax : DataArray float) (freq : Freq),
    Forall2 (fun lo pg =>
               fst lo = fst pg /\ least_of (snd lo) (values (snd pg)))
            (TNn tasmin freq) (resample freq tasmin)
    /\ Forall2 (fun hi pg =>
                  fst hi = fst pg /\ greatest_of (snd hi) (values (snd pg)))
               (TNx tasmin freq) (resample freq tasmin)
    /\ Forall2 (fun lo hi =>
                  fst lo = fst hi /\ float_le (snd lo) (snd hi))
               (TNn tasmin freq) (TNx tasmin freq)
    /\ Forall2 (fun lo pg =>
                  fst lo = fst pg /\ least_of (snd lo) (values (snd pg)))
               (TXn tasmax freq) (resample freq tasmax)
    /\ Forall2 (fun hi pg =>
                  fst hi = fst pg /\ greatest_of (snd hi) (values (snd pg)))
               (TXx tasmax freq) (resample freq tasmax)
    /\ Forall2 (fun lo hi =>
                  fst lo = fst hi /\ float_le (snd lo) (snd hi))
               (TXn tasmax freq) (TXx tasmax freq).
Proof.
  intros tasmin tasmax freq. unfold TNn, TNx, TXn, TXx, resample_reduce.
  assert (Hlo : forall t : DataArray float,
    Forall2 (fun lo pg =>
               fst lo = fst pg /\ least_of (snd lo) (values (snd pg)))
            (map (fun pg => (fst pg, nanmin (values (snd pg))))
                 (resample freq t))
            (resample freq t)).
  { intro t. rewrite <- (map_id (resample freq t)) at 2.
    apply Forall2_map_same. intros [p g] _. cbn [fst snd].
    split; [reflexivity | apply extremes_of_period]. }
  assert (Hhi : forall t : DataArray float,
    Forall2 (fun hi pg =>
               fst hi = fst pg /\ greatest_of (snd hi) (values (snd pg)))
            (map (fun pg => (fst pg, Indices2.nanmax (values (snd pg))))
                 (resample freq t))
            (resample freq t)).
  { intro t. rewrite <- (map_id (resample freq t)) at 2.
    apply Forall2_map_same. intros [p g] _. cbn [fst snd].
    split; [reflexivity | apply extremes_of_period]. }
  assert (Hle : forall t : DataArray float,
    Forall2 (fun lo hi =>
               fst lo = fst hi /\ float_le (snd lo) (snd hi))
            (map (fun pg => (fst pg, nanmin (values (snd pg))))
                 (resample freq t))
            (map (fun pg => (fst pg, Indices2.nanmax (values (snd pg))))
                 (resample freq t))).
  { intro t. apply Forall2_map_same. intros [p g] _. cbn [fst snd].
    split; [reflexivity | apply extremes_of_period]. }
  repeat split; auto.
Qed.

End Extremes.

(** ** Days below a percentile *)

Section BelowPercentile.

Import Lqa.
Local Open Scope Q_scope.

Lemma insert_sorted_least (y : Q) (l : list Q) :
  head_is_least l -> head_is_least (insert_sorted y l).
Proof.
  destruct l as [| z l]; cbn; [constructor |].
  intro Hz. destruct (Qle_bool y z) eqn:E.
  - apply Qle_bool_iff in E. cbn. constructor; [exact E |].
    eapply Forall_impl; [| exact Hz]. cbn. intros v Hv. lra.
  - assert (Hzy : z <= y).
    { assert (~ y <= z) by (rewrite <- Qle_bool_iff; congruence). lra. }
    cbn. apply Forall_forall. intros v Hv.
    apply in_insert_sorted in Hv. destruct Hv as [-> | Hv]; [exact Hzy |].
    rewrite Forall_forall in Hz. apply Hz. exact Hv.
Qed.

Lemma sort_least (l : list Q) : head_is_least (sort l).
Proof.
  induction l as [| y l IH]; cbn; [exact I |].
  apply insert_sorted_least. exact IH.
Qed.

(** The quantile [0] is the least of the pooled values. *)
Lemma quantile_0_least (pool : list float) (q : Q) :
  quantile 0 pool = Ok (Some q) ->
  forall v, In (Some v) pool -> q <= v.
Proof.
  unfold quantile. cbn [orb Qlt_bool Qle_bool negb].
  change (Qlt_bool 0 0 || Qlt_bool 1 0) with false. cbv iota.
  intros Hq v Hv.
  pose proof (sort_least (dropna pool)) as Hleast.
  assert (Hin : In v (sort (dropna pool)))
    by (apply in_sort, in_dropna; exact Hv).
  destruct (sort (dropna pool)) as [| x xs]; [discriminate |].
  cbn [head_is_least] in Hleast.
  set (n1 := (length (x :: xs) - 1)%nat) in *.
  assert (Hfl : Qfloor (0 * inject_Z (Z.of_nat n1)) = 0%Z).
  { rewrite (Qfloor_comp _ 0) by apply Qmult_0_l. reflexivity. }
  rewrite Hfl in Hq. cbn [Z.to_nat nth] in Hq.
  injection Hq as Hq.
  assert (Hqx : q == x).
  { rewrite <- Hq. change (inject_Z (Z.of_nat 0)) with 0. ring. }
  rewrite Hqx. destruct Hin as [<- | Hin]; [lra |].
  rewrite Forall_forall in Hleast. apply Hleast. exact Hin.
Qed.

Lemma sel_in {A : Type} (t : Z) (a : DataArray A) (x : A) :
  sel t a = Some x -> In (t, x) a.
Proof.
  induction a as [| [t' y] a IH]; cbn; [discriminate |].
  destruct (t' =? t)%Z eqn:E.
  - apply Z.eqb_eq in E. intro H. injection H as ->. subst. now left.
  - intro H. right. apply IH. exact H.
Qed.

(** A day is in the pool of its own day of year, whatever the window. *)
Lemma day_in_own_pool (dayofyear : Z -> Z) (arr : DataArray float) (w : nat)
  (t : Z) (x : float) :
  (0 < w)%nat -> In (t, x) arr ->
  In x (pool_by_position dayofyear arr w (dayofyear t)).
Proof.
  intros Hw Hin.
  destruct (In_nth arr (t, x) (0%Z, None) Hin) as [i [Hi Hnth]].
  unfold pool_by_position. apply in_concat.
  exists (window_at arr w i). split.
  - apply in_map. unfold positions. apply filter_In. split.
    + apply in_seq. lia.
    + unfold times.
      rewrite (map_nth fst arr (0%Z, None) i : nth i (map fst arr) 0%Z = _).
      rewrite Hnth. cbn [fst]. apply Z.eqb_refl.
  - unfold window_at. apply in_map_iff. exists (w / 2)%nat. split.
    + unfold value_at.
      assert (Hle : (w / 2 <=? i + w / 2)%nat = true)
        by (apply Nat.leb_le; lia).
      rewrite Hle. replace (i + w / 2 - w / 2)%nat with i by lia.
      unfold values.
      rewrite (map_nth snd arr (0%Z, None) i
                 : nth i (map snd arr) None = _).
      rewrite Hnth. reflexivity.
    + assert (w / 2 < w)%nat by (apply Nat.div_lt; lia).
      apply in_seq. lia.
Qed.

Lemma resample_sum_zero (freq : Freq) (a : DataArray Z) :
  Forall (eq 0%Z) (values a) ->
  Forall (fun c => snd c = 0%Z) (resample_sum freq a).
Proof.
  intro H. unfold resample_sum. apply Forall_map. cbn [snd].
  eapply Forall_impl; [| apply (resample_values_forall _ freq a H)].
  intros [p g] Hg. cbn [snd] in *.
  induction Hg as [| v vs Hv Hvs IH]; cbn; [reflexivity |].
  rewrite IH. now subst.
Qed.

(** X9.  No day is below the percentile [0] of its own series: with the
    table that [percentile_doy] builds for [per = 0] from [tasmin], [TN10p]
    counts no day in any period, whatever the window. *)
Theorem TN10p_of_percentile_0_is_zero :
  forall (dayofyear : Z -> Z) (tasmin : DataArray float) (window : Z)
         (freq : Freq) (p10 : DataArray float),
    percentile_doy dayofyear tasmin window 0 = Ok p10 ->
    Forall (fun c => snd c = 0%Z) (TN10p dayofyear tasmin p10 freq).
Proof.
  intros dayofyear tasmin window freq p10 Hp.
  destruct (percentile_doy_table _ _ _ _ _ Hp) as [_ Hentries].
  assert (Hw : (0 < Z.to_nat window)%nat).
  { unfold percentile_doy, rolling in Hp.
    destruct (window <=? 0)%Z eqn:E; [discriminate |].
    apply Z.leb_gt in E. lia. }
  unfold TN10p. apply resample_sum_zero.
  unfold values, amap. rewrite !map_map. cbn [fst snd].
  apply Forall_map. apply Forall_forall. intros [t x] Hin. cbn [fst snd].
  destruct x as [v |]; [| reflexivity].
  destruct (sel (dayofyear t) p10) as [[p |] |] eqn:Es; try reflexivity.
  apply sel_in in Es. specialize (Hentries _ _ Es).
  pose proof (quantile_0_least _ _ Hentries v
                (day_in_own_pool dayofyear tasmin _ t (Some v) Hw Hin))
    as Hle.
  destruct (Qlt_bool v p) eqn:E; [| reflexivity].
  apply Qlt_bool_iff in E. lra.
Qed.

End BelowPercentile.

(** ** [CFD] away from the ends of the series *)

Section CFDInterior.

Local Open Scope Z_scope.

Lemma masked_index_spec (vs : list float) :
  forall i,
    map (fun iv => where_nan (fst iv) (gt (snd iv) K2C))
        (combine (map Z.of_nat (seq i (length vs))) vs)
    = masked_index i (map (fun x => gt x K2C) vs).
Proof.
  induction vs as [| v vs IH]; intro i; [reflexivity |].
  cbn. f_equal. apply IH.
Qed.

Lemma masked_index_app (ms1 ms2 : list bool) :
  forall i,
    masked_index i (ms1 ++ ms2)
    = masked_index i ms1 ++ masked_index (i + length ms1) ms2.
Proof.
  induction ms1 as [| m ms1 IH]; intro i; cbn.
  - now rewrite Nat.add_0_r.
  - rewrite IH.
    replace (i + S (length ms1))%nat with (S i + length ms1)%nat by lia.
    reflexivity.
Qed.

Lemma masked_index_frost (k : nat) :
  forall i, masked_index i (repeat false k) = repeat None k.
Proof.
  induction k as [| k IH]; intro i; cbn; [reflexivity |].
  now rewrite IH.
Qed.

Lemma bfill_gap (k : nat) (j : Z) (r : list findex) :
  forall l, bfill l = Some j :: r ->
            bfill (repeat None k ++ l) = repeat (Some j) k ++ Some j :: r.
Proof.
  intros l Hl. induction k as [| k IH]; cbn; [exact Hl |].
  rewrite IH. destruct k; reflexivity.
Qed.

Lemma diff_gap (k : nat) (j : Z) (r : list findex) :
  diff (repeat (Some j) k ++ Some j :: r)
  = repeat (Some 0) k ++ diff (Some j :: r).
Proof.
  induction k as [| k IH]; [reflexivity |].
  cbn [repeat app]. 
  change (diff (Some j :: repeat (Some j) k ++ Some j :: r))
    with (match repeat (Some j) k ++ Some j :: r with
          | y :: _ => fsub y (Some j)
                      :: diff (repeat (Some j) k ++ Some j :: r)
          | [] => []
          end).
  rewrite IH.
  destruct k; cbn; rewrite Z.sub_diag; reflexivity.
Qed.

Lemma mild_ended_head (ms : list bool) :
  mild_ended ms -> exists tl, ms = true :: tl.
Proof. intros [| k ms' _]; eexists; reflexivity. Qed.

Lemma bfill_mild_ended (ms : list bool) (i : nat) :
  mild_ended ms ->
  exists r, bfill (masked_index i ms) = Some (Z.of_nat i) :: r.
Proof.
  intro H. destruct (mild_ended_head ms H) as [tl ->].
  cbn. eexists. reflexivity.
Qed.

Lemma nanmax_app (l m : list findex) :
  Indices.nanmax (l ++ m)
  = fmax2 (Indices.nanmax l) (Indices.nanmax m).
Proof.
  induction l as [| x l IH]; [reflexivity |].
  change (Indices.nanmax ((x :: l) ++ m))
    with (fmax2 x (Indices.nanmax (l ++ m))).
  change (Indices.nanmax (x :: l)) with (fmax2 x (Indices.nanmax l)).
  rewrite IH.
  destruct x, (Indices.nanmax l), (Indices.nanmax m); cbn;
    try reflexivity; f_equal; lia.
Qed.

Lemma nanmax_minus_ones (k : nat) :
  Indices.nanmax (repeat (Some (-1)) k)
  = match k with O => None | S _ => Some (-1) end.
Proof.
  induction k as [| k IH]; [reflexivity |].
  cbn [repeat]. unfold Indices.nanmax in *. cbn [fold_right]. rewrite IH.
  destruct k; reflexivity.
Qed.

(** The run lengths that a scan yields do not depend on where it starts. *)
Lemma scan_lengths (xs : list bool) :
  forall pos pos' cur cur',
    open_len cur = open_len cur' ->
    (cur = None <-> cur' = None) ->
    map run_len (scan pos cur xs) = map run_len (scan pos' cur' xs).
Proof.
  induction xs as [| x xs IH]; intros pos pos' cur cur' Hlen Hnone.
  - destruct cur, cur'; cbn in *; try reflexivity;
      try (destruct Hnone as [H1 H2]; try discriminate (H1 eq_refl);
           discriminate (H2 eq_refl)).
    now rewrite Hlen.
  - destruct x; cbn [scan].
    + apply IH.
      * destruct cur, cur'; cbn in *; try lia;
          destruct Hnone as [H1 H2]; try discriminate (H1 eq_refl);
          discriminate (H2 eq_refl).
      * split; discriminate.
    + destruct cur, cur'; cbn [map];
        try (destruct Hnone as [H1 H2]; try discriminate (H1 eq_refl);
             discriminate (H2 eq_refl)).
      * cbn in Hlen. rewrite Hlen. f_equal. apply IH; tauto.
      * apply IH; tauto.
Qed.

Local Abbreviation longest rs := (fold_right Nat.max 0%nat (map run_len rs)).

Lemma longest_after_run (k : nat) (xs : list bool) :
  forall pos cur,
    longest (scan pos cur (repeat true k ++ false :: xs))
    = Nat.max (open_len cur + k) (longest (scan 0 None xs)).
Proof.
  induction k as [| k IH]; intros pos cur.
  - cbn [repeat app scan]. destruct cur as [r |]; cbn [map fold_right].
    + rewrite (scan_lengths xs (S pos) 0 None None) by tauto.
      cbn [open_len]. lia.
    + rewrite (scan_lengths xs (S pos) 0 None None) by tauto.
      cbn [open_len]. lia.
  - cbn [repeat app scan]. rewrite IH.
    destruct cur; cbn [open_len run_len]; lia.
Qed.

Lemma longest_run_segment (k : nat) (xs : list bool) :
  longest_run (false :: repeat true k ++ false :: xs)
  = Nat.max k (longest_run (false :: xs)).
Proof.
  unfold longest_run, runs. cbn [scan].
  rewrite longest_after_run.
  rewrite (scan_lengths xs 1 0 None None) by tauto. reflexivity.
Qed.

(** The statistic of [CFD] over a series that begins and ends above
    freezing: nothing for a single day, else the longest run of frost. *)
Lemma CFD_core (ms : list bool) :
  mild_ended ms ->
  forall i,
    Indices.nanmax
      (map (fun v => Indices.fsub v (Some 1))
           (diff (bfill (masked_index i ms))))
    = match ms with
      | [_] => None
      | _ => Some (Z.of_nat (longest_run (map negb ms)))
      end.
Proof.
  induction 1 as [| k ms Hms IH]; intro i; [reflexivity |].
  destruct (mild_ended_head ms Hms) as [tl Htl].
  destruct (bfill_mild_ended ms (S i + k) Hms) as [r Hr].
  specialize (IH (S i + k)%nat).
  cbn [masked_index where_nan bfill].
  rewrite masked_index_app, masked_index_frost, repeat_length.
  rewrite (bfill_gap k _ r) by exact Hr.
  change (diff (Some (Z.of_nat i)
                :: repeat (Some (Z.of_nat (S i + k))) k
                   ++ Some (Z.of_nat (S i + k)) :: r))
    with (match repeat (Some (Z.of_nat (S i + k))) k
                ++ Some (Z.of_nat (S i + k)) :: r with
          | y :: _ =>
              Indices.fsub y (Some (Z.of_nat i))
              :: diff (repeat (Some (Z.of_nat (S i + k))) k
                       ++ Some (Z.of_nat (S i + k)) :: r)
          | [] => []
          end).
  rewrite diff_gap.
  assert (Hfirst :
    match repeat (Some (Z.of_nat (S i + k))) k
          ++ Some (Z.of_nat (S i + k)) :: r with
    | y :: _ =>
        Indices.fsub y (Some (Z.of_nat i))
        :: repeat (Some 0) k ++ diff (Some (Z.of_nat (S i + k)) :: r)
    | [] => []
    end
    = Some (Z.of_nat (S i + k) - Z.of_nat i)
      :: repeat (Some 0) k ++ diff (Some (Z.of_nat (S i + k)) :: r))
    by (destruct k; reflexivity).
  rewrite Hfirst. clear Hfirst.
  rewrite <- Hr. cbn [map]. rewrite map_app, map_repeat.
  change (Indices.fsub (Some 0) (Some 1)) with (Some (-1)).
  change (Indices.nanmax (?x :: ?l)) with (fmax2 x (Indices.nanmax l)).
  unfold Indices.nanmax at 1. cbn [fold_right].
  fold (Indices.nanmax
          (repeat (Some (-1)) k
           ++ map (fun v => Indices.fsub v (Some 1))
                  (diff (bfill (masked_index (S i + k) ms))))).
  rewrite nanmax_app, nanmax_minus_ones, IH.
  replace (i + 1)%nat with (S i) in * by lia.
  subst ms. cbn [map negb].
  rewrite map_app, map_repeat. cbn [map negb].
  rewrite longest_run_segment.
  cbn [Indices.fsub].
  replace (Z.of_nat (S i + k) - Z.of_nat i - 1) with (Z.of_nat k) by lia.
  rewrite Nat2Z.inj_max.
  destruct tl as [| m tl'].
  - change (longest_run (false :: map negb [])) with 0%nat.
    destruct k; cbn [repeat app fmax2]; f_equal; lia.
  - destruct k; cbn [repeat app fmax2]; f_equal; lia.
Qed.

End CFDInterior.

Section CFDInteriorSeries.

Local Open Scope Z_scope.

Lemma split_first_true (l : list bool) :
  In true l -> exists k l', l = repeat false k ++ true :: l'.
Proof.
  induction l as [| b l IH]; intro H; [destruct H |].
  destruct b.
  - exists 0%nat, l. reflexivity.
  - destruct H as [H | H]; [discriminate |].
    destruct (IH H) as [k [l' ->]]. exists (S k), l'. reflexivity.
Qed.

Lemma last_in {A : Type} (l : list A) (d : A) : l <> [] -> In (last l d) l.
Proof.
  induction l as [| a l IH]; intro H; [congruence |].
  destruct l as [| b l]; [now left |].
  right. apply IH. discriminate.
Qed.

Lemma last_map {A B : Type} (f : A -> B) (l : list A) (d : A) :
  last (map f l) (f d) = f (last l d).
Proof.
  induction l as [| a l IH]; [reflexivity |].
  destruct l as [| b l]; [reflexivity |]. exact IH.
Qed.

Lemma last_after {A : Type} (l m : list A) (d : A) :
  m <> [] -> last (l ++ m) d = last m d.
Proof.
  intro Hm. induction l as [| a l IH]; [reflexivity |].
  cbn [app]. destruct (l ++ m) as [| b r] eqn:E.
  - destruct l; cbn in E; [congruence | discriminate].
  - exact IH.
Qed.

Lemma mild_ended_intro (n : nat) :
  forall ms,
    (length ms <= n)%nat -> hd false ms = true -> last ms false = true ->
    mild_ended ms.
Proof.
  induction n as [| n IH]; intros ms Hlen Hhd Hlast.
  - destruct ms; [discriminate | cbn in Hlen; lia].
  - destruct ms as [| m rest]; [discriminate |].
    cbn in Hhd. subst m. destruct rest as [| b rest]; [constructor |].
    assert (Hin : In true (b :: rest)).
    { change (last (true :: b :: rest) false)
        with (last (b :: rest) false) in Hlast.
      pose proof (last_in (b :: rest) false) as Hl.
      rewrite Hlast in Hl. apply Hl. discriminate. }
    destruct (split_first_true _ Hin) as [k [l' Hsplit]].
    rewrite Hsplit. apply me_run. apply IH.
    + apply (f_equal (@length bool)) in Hsplit.
      rewrite length_app, repeat_length in Hsplit. cbn in *. lia.
    + reflexivity.
    + change (last (true :: b :: rest) false)
        with (last (b :: rest) false) in Hlast.
      rewrite Hsplit in Hlast.
      rewrite last_after in Hlast by discriminate. exact Hlast.
Qed.

Lemma resample_single {A : Type} (freq : Freq) (p : Z) (a : DataArray A) :
  a <> [] -> Forall (fun t => freq t = p) (times a) ->
  resample freq a = [(p, a)].
Proof.
  induction a as [| [t x] a IH]; intros Hne Hall; [congruence |].
  cbn in Hall. inversion Hall as [| ? ? Ht Ha]; subst.
  cbn [resample]. destruct a as [| [t' x'] a'].
  - reflexivity.
  - rewrite IH by (try discriminate; exact Ha).
    rewrite Z.eqb_refl. reflexivity.
Qed.

Lemma length_bfill (d : list findex) : length (bfill d) = length d.
Proof.
  induction d as [| [v |] d IH]; cbn; [reflexivity | now rewrite IH |].
  destruct (bfill d) as [| nxt rest] eqn:E; cbn in *; lia.
Qed.

Lemma length_diff (b : list findex) : length (diff b) = (length b - 1)%nat.
Proof.
  induction b as [| x b IH]; [reflexivity |].
  destruct b as [| y b]; [reflexivity |].
  change (diff (x :: y :: b)) with (Indices.fsub y x :: diff (y :: b)).
  cbn [length] in *. rewrite IH. lia.
Qed.

Lemma length_masked_index (ms : list bool) :
  forall i, length (masked_index i ms) = length ms.
Proof.
  induction ms as [| m ms IH]; intro i; cbn; [reflexivity |].
  now rewrite IH.
Qed.

Lemma values_combine {A : Type} (ts : list Z) :
  forall l : list A, (length l <= length ts)%nat ->
                     values (combine ts l) = l.
Proof.
  induction ts as [| t ts IH]; intros [| x l] H; cbn in *;
    try reflexivity; try lia.
  f_equal. apply IH. lia.
Qed.

Lemma times_combine {A : Type} (ts : list Z) :
  forall l : list A, (length ts <= length l)%nat ->
                     times (combine ts l) = ts.
Proof.
  induction ts as [| t ts IH]; intros [| x l] H; cbn in *;
    try reflexivity; try lia.
  f_equal. apply IH. lia.
Qed.

(** X10.  Where the boundaries do not interfere [CFD] is right: on a series
    of at least two days that lies in one period and begins and ends with a
    day above freezing, it returns the length of the longest run of days
    that are not above freezing. *)
Theorem CFD_is_longest_run_between_mild_days :
  forall (tasmin : DataArray float) (freq : Freq) (p : Z),
    (2 <= length tasmin)%nat ->
    Forall (fun t => freq t = p) (times tasmin) ->
    gt (hd None (values tasmin)) K2C = true ->
    gt (last (values tasmin) None) K2C = true ->
    CFD tasmin freq
    = [(p, Some (Z.of_nat
                   (longest_run
                      (map (fun x => negb (gt x K2C)) (values tasmin)))))].
Proof.
  intros tasmin freq p Hlen Hfreq Hhd Hlast.
  set (ms := map (fun x => gt x K2C) (values tasmin)).
  assert (Hms : mild_ended ms).
  { apply (mild_ended_intro (length ms)); [lia | |].
    - subst ms. destruct (values tasmin); [discriminate Hhd | exact Hhd].
    - subst ms.
      rewrite <- Hlast.
      apply (last_map (fun x => gt x K2C) (values tasmin) None). }
  assert (Hn : length ms = length tasmin)
    by (subst ms; unfold values; now rewrite !length_map).
  unfold CFD, arange.
  replace (length tasmin) with (length (values tasmin))
    by (unfold values; apply length_map).
  rewrite masked_index_spec. fold ms.
  set (d := map (fun v => Indices.fsub v (Some 1))
                (diff (bfill (masked_index 0 ms)))).
  assert (Hd : length d = (length tasmin - 1)%nat).
  { subst d. rewrite length_map, length_diff, length_bfill,
      length_masked_index. lia. }
  assert (Htl : length (tl (times tasmin)) = (length tasmin - 1)%nat).
  { unfold times. destruct tasmin; cbn; [reflexivity |].
    rewrite length_map. lia. }
  rewrite (resample_single freq p).
  - cbn [map fst snd]. rewrite values_combine by lia.
    subst d. rewrite (CFD_core ms Hms 0).
    destruct ms as [| m1 [| m2 ms']] eqn:Ems; cbn in Hn; try lia.
    rewrite <- Ems. subst ms. rewrite map_map. reflexivity.
  - intro Hnil. apply (f_equal (@length _)) in Hnil.
    rewrite length_combine in Hnil. cbn in Hnil. lia.
  - rewrite times_combine by lia.
    unfold times in *. destruct tasmin as [| tx a]; [constructor |].
    cbn in *. inversion Hfreq; assumption.
Qed.

End CFDInteriorSeries.

(** ** The theorems at sample series *)

(** Four days in periods of three. *)
Lemma CFD2_le_FD_le_period_length_witness :
  exists cfd,
    CFD2 (daily [270; 265; 274; 272]%Q) every3 = Ok cfd
    /\ Forall2 (fun c f => fst c = fst f /\ Z.of_nat (snd c) <= snd f)
               cfd (FD (daily [270; 265; 274; 272]%Q) every3)
    /\ Forall2 (fun f pg =>
                  fst f = fst pg
                  /\ 0 <= snd f <= Z.of_nat (length (snd pg)))
               (FD (daily [270; 265; 274; 272]%Q) every3)
               (resample every3 (daily [270; 265; 274; 272]%Q)).
Proof.
  apply (CFD2_le_FD_le_period_length (daily [270; 265; 274; 272]%Q) every3).
  exists 0, 3%nat. reflexivity.
Defined.

(** The same four days, heated to 17 ℃. *)
Lemma degree_days_nonnegative_witness :
  Forall2 (fun gd pg =>
             fst gd = fst pg
             /\ exists s, snd gd = Some s /\ (0 <= s)%Q
                /\ (s == 0 <->
                    Forall (fun x => gt x (4 + K2C) = false)
                           (values (snd pg))))
          (GD4 (daily [270; 265; 274; 272]%Q) every3)
          (resample every3 (daily [270; 265; 274; 272]%Q))
  /\ Forall2 (fun hd pg =>
                fst hd = fst pg
                /\ exists s, snd hd = Some s /\ (0 <= s)%Q
                   /\ (s == 0 <->
                       Forall (fun x => lt x (17 + K2C) = false)
                              (values (snd pg))))
             (HD (daily [270; 265; 274; 272]%Q) every3 17)
             (resample every3 (daily [270; 265; 274; 272]%Q)).
Proof.
  apply (degree_days_nonnegative (daily [270; 265; 274; 272]%Q) every3 17).
  exists 0, 3%nat. reflexivity.
Defined.

(** Three days in one period, thresholds of 25 ℃ and 30 ℃. *)
Lemma hotdays_antitone_in_thresh_witness :
  Forall2 (fun hi lo => fst hi = fst lo /\ snd hi <= snd lo)
          (hotdays (daily [300; 310; 290]%Q) 30 whole)
          (hotdays (daily [300; 310; 290]%Q) 25 whole).
Proof.
  apply (hotdays_antitone_in_thresh (daily [300; 310; 290]%Q) 25 30 whole).
  unfold Qle. simpl. lia.
Defined.

(** Four days in periods of three: one freeze-thaw day, two frost days. *)
Lemma freezethaw_le_frost_and_thaw_days_witness :
  Forall2 (fun ft fd => fst ft = fst fd /\ 0 <= snd ft <= snd fd)
          (daily_freezethaw_cycles (daily [275; 270; 280; 276]%Q)
             (daily [270; 265; 274; 272]%Q) every3)
          (FD (daily [270; 265; 274; 272]%Q) every3)
  /\ Forall2 (fun ft hd => fst ft = fst hd /\ 0 <= snd ft <= snd hd)
             (daily_freezethaw_cycles (daily [275; 270; 280; 276]%Q)
                (daily [270; 265; 274; 272]%Q) every3)
             (hotdays (daily [275; 270; 280; 276]%Q) 0 every3).
Proof.
  apply (freezethaw_le_frost_and_thaw_days (daily [275; 270; 280; 276]%Q)
           (daily [270; 265; 274; 272]%Q) every3).
  - reflexivity.
  - vm_compute. repeat constructor; simpl; intuition discriminate.
Defined.

(** The median over windows of three days of a series of five days. *)
Lemma percentile_within_data_range_witness :
  exists table,
    percentile_doy noleap (daily [280; 270; 290; 275; 285]%Q) 3 (1 # 2)
    = Ok table
    /\ forall d q, In (d, Some q) table -> (270 <= q <= 290)%Q.
Proof.
  assert (H : { table | percentile_doy noleap
                          (daily [280; 270; 290; 275; 285]%Q) 3 (1 # 2)
                        = Ok table })
    by (eexists; vm_compute; reflexivity).
  destruct H as [table H]. exists table. split; [exact H |].
  apply (percentile_within_data_range noleap _ 3 (1 # 2) 270 290 table H)%Q.
  intros v Hv. simpl in Hv.
  repeat (destruct Hv as [Hv | Hv];
          [injection Hv as <-; unfold Qle; simpl; lia |]).
  destruct Hv.
Defined.

(** The minimum over windows of three days, and the days below it. *)
Lemma TN10p_of_percentile_0_is_zero_witness :
  exists p10,
    percentile_doy noleap (daily [280; 270; 290; 275; 285]%Q) 3 0 = Ok p10
    /\ Forall (fun c => snd c = 0)
              (TN10p noleap (daily [280; 270; 290; 275; 285]%Q) p10 every3).
Proof.
  assert (H : { p10 | percentile_doy noleap
                        (daily [280; 270; 290; 275; 285]%Q) 3 0 = Ok p10 })
    by (eexists; vm_compute; reflexivity).
  destruct H as [p10 H]. exists p10. split; [exact H |].
  apply (TN10p_of_percentile_0_is_zero noleap _ 3 every3 p10 H).
Defined.

(** Two frost days between two days above freezing. *)
Lemma CFD_is_longest_run_between_mild_days_witness :
  CFD (daily [275; 270; 268; 274]%Q) whole
  = [(0, Some (Z.of_nat
                 (longest_run
                    (map (fun x => negb (gt x K2C))
                         (values (daily [275; 270; 268; 274]%Q))))))].
Proof.
  apply (CFD_is_longest_run_between_mild_days
           (daily [275; 270; 268; 274]%Q) whole 0).
  - simpl. lia.
  - vm_compute. repeat constructor.
  - reflexivity.
  - reflexivity.
Defined.

End Indices2Facts.

(** * Properties of the other conversions *)

Module Conversion2Facts.
Import Conversion Conversion2 ConversionSpec Conversion2Spec ConversionFacts.

Local Open Scope R_scope.

(** Comparisons of numerals, settled one by one. *)
Ltac settle_comparisons :=
  repeat match goal with
         | |- context [Rlt_dec ?a ?b] => destruct (Rlt_dec a b); try lra
         | |- context [Rle_dec ?a ?b] => destruct (Rle_dec a b); try lra
         | |- context [Req_dec_T ?a ?b] => destruct (Req_dec_T a b); try lra
         end.

Lemma nth_error_map2 {A B C : Type} (f : A -> B -> C) (l : list A) :
  forall (m : list B) (i : nat),
    nth_error (map2 f l m) i
    = match nth_error l i, nth_error m i with
      | Some a, Some b => Some (f a b)
      | _, _ => None
      end.
Proof.
  induction l as [| a l IH]; intros [| b m] [| i]; cbn; try reflexivity.
  - destruct (nth_error l i); reflexivity.
  - apply IH.
Qed.

Lemma nth_error_where_ (a : list float) (other : float) :
  forall (cond : list bool) (i : nat),
    nth_error (where_ a cond other) i
    = match nth_error a i, nth_error cond i with
      | Some v, Some c => Some (if c then v else other)
      | _, _ => None
      end.
Proof. unfold where_. intros. apply nth_error_map2. Qed.

Lemma nth_error_where3 (cond : list bool) :
  forall (xs ys : list float) (i : nat),
    nth_error (where3 cond xs ys) i
    = match nth_error cond i, nth_error xs i, nth_error ys i with
      | Some c, Some a, Some b => Some (if c then a else b)
      | _, _, _ => None
      end.
Proof.
  induction cond as [| c cond IH]; intros [| a xs] [| b ys] [| i]; cbn;
    try reflexivity; try apply IH;
    repeat match goal with
           | |- context [match nth_error ?l ?k with _ => _ end] =>
               destruct (nth_error l k)
           end; reflexivity.
Qed.

Section Units.

Variable convert_units_to : DataArray -> string -> DataArray.
Variable convert_quantity : string -> string -> R.

(** ** Mean temperature *)

(** X11.  Where both extremes are numbers, the mean temperature that [tas]
    returns lies between them; where one is NaN it is NaN. *)
Theorem tas_between_extremes :
  forall (tasmin tasmax : DataArray) (i : nat) (x n : float),
    nth_error (data (convert_units_to tasmax (units tasmin))) i = Some x ->
    nth_error (data tasmin) i = Some n ->
    exists m,
      nth_error (data (tas convert_units_to tasmin tasmax)) i = Some m
      /\ match x, n with
         | Some a, Some b =>
             exists r, m = Some r /\ Rmin a b <= r <= Rmax a b
         | _, _ => m = None
         end.
Proof.
  intros tasmin tasmax i x n Hx Hn. unfold tas. cbn [data].
  rewrite nth_error_map2, Hx, Hn. eexists. split; [reflexivity |].
  destruct x as [a |], n as [b |]; cbn; try reflexivity.
  eexists. split; [reflexivity |].
  unfold Rmin, Rmax. destruct (Rle_dec a b); lra.
Qed.

(** ** Snow and rain *)

(** X12.  With the ["binary"] method and precipitation and temperature on
    the same index neither call raises, and every point is all snow or all
    rain: where the temperature is below the threshold the snowfall is the
    precipitation and the rain is [0]; elsewhere, also where the temperature
    is NaN, the snowfall is [0] and the rain is the precipitation.  Where
    the precipitation is NaN the rain is NaN, and the snowfall is NaN below
    the threshold and [0] elsewhere. *)
Theorem precipitation_is_all_snow_or_all_rain :
  forall (pr tasx : DataArray) (thresh : string) (i : nat) (p t : float),
    length (data pr) = length (data tasx) ->
    nth_error (data pr) i = Some p ->
    nth_error (data tasx) i = Some t ->
    exists prsn prlp,
      snowfall_approximation convert_quantity pr tasx thresh "binary"
      = Ok prsn
      /\ rain_approximation convert_quantity pr tasx thresh "binary"
         = Ok prlp
      /\ nth_error (data prsn) i
         = Some (if flt t (Some (convert_quantity thresh (units tasx)))
                 then p else Some 0)
      /\ nth_error (data prlp) i
         = Some (match p with
                 | Some _ =>
                     if flt t (Some (convert_quantity thresh (units tasx)))
                     then Some 0 else p
                 | None => None
                 end).
Proof.
  intros pr tasx thresh i p t Hlen Hp Ht.
  unfold rain_approximation, snowfall_approximation, where_other.
  rewrite length_map, Hlen, Nat.eqb_refl. cbn.
  eexists. eexists. split; [reflexivity |]. split; [reflexivity |].
  cbn [data]. rewrite nth_error_map2, nth_error_where_, Hp.
  rewrite nth_error_map, Ht. cbn [option_map].
  destruct (flt t (Some (convert_quantity thresh (units tasx))));
    destruct p as [v |]; cbn;
    split; try reflexivity; repeat f_equal; lra.
Qed.

(** ** Errors of the method dispatch, one call further *)

Lemma svp_unknown (tasx : DataArray) (ice_thresh : option string)
  (method : string) :
  in_list method svp_methods = false ->
  exists msg,
    saturation_vapor_pressure convert_quantity tasx ice_thresh method
    = Raise (ValueError msg).
Proof.
  unfold saturation_vapor_pressure, in_list, svp_methods. cbn [existsb].
  destruct (String.eqb method "sonntag90"), (String.eqb method "SO90"),
    (String.eqb method "tetens30"), (String.eqb method "TE30"),
    (String.eqb method "goffgratch46"), (String.eqb method "GG46"),
    (String.eqb method "wmo08"), (String.eqb method "WMO08");
    cbn; intro H; try discriminate H; eexists; reflexivity.
Qed.

Lemma snowfall_unknown (pr tasx : DataArray) (thresh method : string) :
  String.eqb method "binary" = false ->
  exists msg,
    snowfall_approximation convert_quantity pr tasx thresh method
    = Raise (ValueError msg).
Proof.
  intro H. unfold snowfall_approximation. rewrite H. cbn.
  eexists; reflexivity.
Qed.

(** X13.  A method label that the dispatch does not know is refused with a
    [ValueError] by the callers too: by [rain_approximation], by
    [specific_humidity], and by [relative_humidity] when the dew point is
    given. *)
Theorem unknown_method_is_rejected_by_callers :
  forall (pr tasx rh ps dtas : DataArray) (huss psopt : option DataArray)
         (ice_thresh invalid_values : option string)
         (thresh method : string),
    (String.eqb method "binary" = false ->
       exists msg,
         rain_approximation convert_quantity pr tasx thresh method
         = Raise (ValueError msg))
    /\ (in_list method svp_methods = false ->
       exists msg,
         specific_humidity convert_units_to convert_quantity tasx rh ps
           ice_thresh method invalid_values
         = Raise (ValueError msg))
    /\ (in_list method svp_methods = false ->
        in_list method ["bohren98"; "BA90"]%string = false ->
       exists msg,
         relative_humidity convert_units_to convert_quantity tasx
           (Some dtas) huss psopt ice_thresh method invalid_values
         = Raise (ValueError msg)).
Proof.
  intros pr tasx rh ps dtas huss psopt ice_thresh invalid_values thresh
    method.
  split; [| split].
  - intro H.
    destruct (snowfall_unknown pr tasx thresh method H) as [msg Hmsg].
    unfold rain_approximation. rewrite Hmsg. cbn. eexists; reflexivity.
  - intro H. unfold specific_humidity.
    destruct (svp_unknown (convert_units_to tasx "degK") ice_thresh method H)
      as [msg Hmsg].
    rewrite Hmsg. cbn. eexists; reflexivity.
  - intros H Hb. unfold relative_humidity. rewrite Hb.
    destruct (svp_unknown dtas ice_thresh method H) as [msg Hmsg].
    rewrite Hmsg. cbn. eexists; reflexivity.
Qed.

(** ** Wind components *)

Lemma component_within (a c : R) : -1 <= c <= 1 -> Rabs (a * c) <= Rabs a.
Proof.
  intro Hc. rewrite Rabs_mult.
  assert (H1 : Rabs c <= 1) by (apply Rabs_le; exact Hc).
  pose proof (Rabs_pos a). nra.
Qed.

(** X14.  Neither component that [sfcwind_2_uas_vas] returns exceeds the
    wind speed in magnitude, whatever the direction; both are NaN where the
    speed or the direction is NaN, and only there. *)
Theorem wind_components_within_speed :
  forall (sfcWind sfcWindfromdir : DataArray) (i : nat) (w d : float),
    nth_error (data (convert_units_to sfcWind "m/s")) i = Some w ->
    nth_error (data sfcWindfromdir) i = Some d ->
    let uv := sfcwind_2_uas_vas convert_units_to sfcWind sfcWindfromdir in
    exists u v,
      nth_error (data (fst uv)) i = Some u
      /\ nth_error (data (snd uv)) i = Some v
      /\ match w, d with
         | Some a, Some _ =>
             exists x y,
               u = Some x /\ v = Some y
               /\ Rabs x <= Rabs a /\ Rabs y <= Rabs a
         | _, _ => u = None /\ v = None
         end.
Proof.
  intros sfcWind sfcWindfromdir i w d Hw Hd. cbn.
  rewrite !nth_error_map2, !nth_error_map, Hw, Hd. cbn [option_map].
  eexists. eexists. split; [reflexivity |]. split; [reflexivity |].
  destruct w as [a |], d as [b |]; cbn; try (split; reflexivity).
  eexists. eexists. split; [reflexivity |]. split; [reflexivity |].
  split; apply component_within; [apply COS_bound | apply SIN_bound].
Qed.

(** ** Relative humidity from the dew point, Bohren and Albrecht *)

Lemma exp_le_1 (x : R) : x <= 0 -> exp x <= 1.
Proof.
  intro H. destruct (Req_dec x 0) as [-> | Hne].
  - rewrite exp_0. lra.
  - rewrite <- exp_0. left. apply exp_increasing. lra.
Qed.

(** X15.  With the method ["bohren98"] and no treatment of invalid values,
    a dew point that is positive and at most the temperature gives a
    relative humidity between [0] and [100], and the call does not
    raise. *)
Theorem bohren98_within_0_100 :
  forall (tasx dtas : DataArray) (huss ps : option DataArray)
         (ice_thresh : option string) (i : nat) (t d : R),
    nth_error (data (convert_units_to tasx "degK")) i = Some (Some t) ->
    nth_error (data (convert_units_to dtas "degK")) i = Some (Some d) ->
    0 < d <= t ->
    exists rh r,
      relative_humidity convert_units_to convert_quantity tasx (Some dtas)
        huss ps ice_thresh "bohren98" None = Ok rh
      /\ nth_error (data rh) i = Some (Some r)
      /\ 0 <= r <= 100.
Proof.
  intros tasx dtas huss ps ice_thresh i t d Ht Hd [Hd0 Hdt].
  unfold relative_humidity. cbn.
  eexists. eexists. split; [reflexivity |]. cbn [data].
  rewrite nth_error_map2, Ht, Hd. cbn. split; [reflexivity |].
  match goal with |- _ <= 100 * exp ?e <= _ => set (x := e) end.
  assert (Hx : x <= 0).
  { unfold x. unfold Rdiv.
    assert (0 < 461.5 * t * d) by (apply Rmult_lt_0_compat; lra).
    assert (0 < / (461.5 * t * d)) by (apply Rinv_0_lt_compat; assumption).
    assert (- 2.501e6 * (t - d) <= 0) by nra.
    nra. }
  pose proof (exp_pos x). pose proof (exp_le_1 x Hx). lra.
Qed.

(** ** Specific humidity *)

Lemma fclip_bounds (s q : float) (r : R) :
  fclip (Some 0) s q = Some r ->
  exists b, s = Some b /\ r <= b /\ (0 <= b -> 0 <= r).
Proof.
  destruct q as [a |], s as [b |]; cbn; try discriminate.
  intro H. injection H as <-. exists b. split; [reflexivity |]. split.
  - apply Rmin_r.
  - intro Hb. apply Rmin_glb; [| exact Hb].
    apply Rmax_r.
Qed.

Lemma mask_bounds (s q : float) (r : R) :
  (if fle q s && fge q (Some 0) then q else None) = Some r ->
  exists b, s = Some b /\ r <= b /\ 0 <= r.
Proof.
  destruct q as [a |], s as [b |]; cbn; try discriminate;
    try (destruct (Rleb 0 a); discriminate).
  destruct (Rleb a b) eqn:Hab; cbn; [| discriminate].
  destruct (Rleb 0 a) eqn:H0; [| discriminate].
  intro H. injection H as <-. exists b.
  apply Rleb_true in Hab. apply Rleb_true in H0. auto.
Qed.

(** X16.  With [invalid_values] set to ["clip"] or ["mask"], a specific
    humidity that [specific_humidity] reports as a number never exceeds the
    saturation specific humidity of that point, and it is not negative
    unless that saturation value itself is. *)
Theorem specific_humidity_at_most_saturation :
  forall (tasx rh ps : DataArray) (ice_thresh : option string)
         (method iv : string) (out : DataArray) (i : nat) (r : R),
    iv = "clip"%string \/ iv = "mask"%string ->
    specific_humidity convert_units_to convert_quantity tasx rh ps
      ice_thresh method (Some iv) = Ok out ->
    nth_error (data out) i = Some (Some r) ->
    exists e_sat e p s,
      saturation_vapor_pressure convert_quantity
        (convert_units_to tasx "degK") ice_thresh method = Ok e_sat
      /\ nth_error (data e_sat) i = Some e
      /\ nth_error (data (convert_units_to ps "Pa")) i = Some p
      /\ mixing_to_specific (saturation_mixing_ratio e p) = Some s
      /\ r <= s /\ (0 <= s -> 0 <= r).
Proof.
  intros tasx rh ps ice_thresh method iv out i r Hiv Hout Hr.
  unfold specific_humidity in Hout.
  destruct (saturation_vapor_pressure convert_quantity
              (convert_units_to tasx "degK") ice_thresh method)
    as [e_sat | err] eqn:Hsat; cbn in Hout; [| discriminate].
  exists e_sat.
  destruct Hiv as [-> | ->]; cbn in Hout; injection Hout as <-;
    cbn [data] in Hr.
  - repeat rewrite ?nth_error_map2, ?nth_error_map in Hr.
    destruct (nth_error (data e_sat) i) as [e |]; [| discriminate].
    destruct (nth_error (data (convert_units_to ps "Pa")) i) as [p |];
      [| discriminate].
    destruct (nth_error (data (convert_units_to rh "")) i) as [h |];
      [| discriminate].
    cbn [option_map] in Hr. injection Hr as Hr.
    apply fclip_bounds in Hr as (b & Hb & Hle & H0).
    exists e, p, b. repeat (split; [reflexivity |]).
    split; [exact Hb |]. split; assumption.
  - repeat rewrite ?nth_error_where_, ?nth_error_map2, ?nth_error_map in Hr.
    destruct (nth_error (data e_sat) i) as [e |]; [| discriminate].
    destruct (nth_error (data (convert_units_to ps "Pa")) i) as [p |];
      [| discriminate].
    destruct (nth_error (data (convert_units_to rh "")) i) as [h |];
      [| discriminate].
    cbn [option_map] in Hr. injection Hr as Hr.
    apply mask_bounds in Hr as (b & Hb & Hle & H0).
    exists e, p, b. repeat (split; [reflexivity |]).
    split; [exact Hb |]. split; [assumption | intros _; assumption].
Qed.

(** ** Wind chill *)

(** X17.  With [mask_invalid], [wind_chill_index] reports a number only
    where the temperature is at most [max_temp_thresh], and, unless
    [slow_wind_calc] is set, only where the wind is at least
    [min_wind_thresh]. *)
Theorem wind_chill_masked_outside_validity :
  forall (tasx sfcWind : DataArray) (slow_wind_calc : bool)
         (max_temp_thresh min_wind_thresh : string) (i : nat) (w : R),
    nth_error
      (data (wind_chill_index convert_units_to convert_quantity tasx sfcWind
               slow_wind_calc true max_temp_thresh min_wind_thresh)) i
    = Some (Some w) ->
    exists t x,
      nth_error (data (convert_units_to tasx "degC")) i = Some (Some t)
      /\ nth_error (data (convert_units_to sfcWind "km/h")) i = Some x
      /\ t <= convert_quantity max_temp_thresh "degC"
      /\ (slow_wind_calc = false ->
          exists v, x = Some v
                    /\ convert_quantity min_wind_thresh "km/h" <= v).
Proof.
  intros tasx sfcWind slow max_t min_w i w H.
  unfold wind_chill_index in H. cbn [data] in H.
  rewrite nth_error_where_, nth_error_map in H.
  destruct slow.
  - rewrite nth_error_where3, !nth_error_map2, !nth_error_map in H.
    destruct (nth_error (data (convert_units_to sfcWind "km/h")) i)
      as [x |]; [| discriminate].
    destruct (nth_error (data (convert_units_to tasx "degC")) i)
      as [[t |] |]; cbn in H; try discriminate.
    + exists t, x. split; [reflexivity |]. split; [reflexivity |].
      destruct (Rleb t (convert_quantity max_t "degC")) eqn:Ht;
        [| discriminate].
      apply Rleb_true in Ht. split; [exact Ht | discriminate].
  - rewrite nth_error_where_, !nth_error_map2, !nth_error_map in H.
    destruct (nth_error (data (convert_units_to tasx "degC")) i)
      as [[t |] |]; cbn in H; try discriminate.
    + destruct (nth_error (data (convert_units_to sfcWind "km/h")) i)
        as [[v |] |]; cbn in H; try discriminate.
      * destruct (Rleb t (convert_quantity max_t "degC")) eqn:Ht;
          [| discriminate].
        destruct (Rleb (convert_quantity min_w "km/h") v) eqn:Hv;
          [| discriminate].
        apply Rleb_true in Ht. apply Rleb_true in Hv.
        exists t, (Some v). repeat split; try assumption.
        intros _. exists v. split; [reflexivity | exact Hv].
      * destruct (Rleb t (convert_quantity max_t "degC")); discriminate.
    + destruct (nth_error (data (convert_units_to sfcWind "km/h")) i)
        as [[v |] |]; cbn in H; discriminate.
Qed.

Lemma Rpower_016_lower (x : R) : 3 <= x -> 1.16 <= Rpower x 0.16.
Proof.
  intro Hx. apply Rnot_lt_le. intro Hlt.
  assert (Hpos : 0 < Rpower x 0.16) by apply exp_pos.
  assert (H25 : Rpower x 0.16 ^ 25 = x ^ 4).
  { rewrite <- (Rpower_pow 25 _ Hpos), Rpower_mult.
    replace (0.16 * INR 25) with (INR 4) by (simpl INR; lra).
    apply Rpower_pow. lra. }
  assert (Hup : Rpower x 0.16 ^ 25 <= 1.16 ^ 25)
    by (apply pow_incr; lra).
  assert (Hlo : 3 ^ 4 <= x ^ 4) by (apply pow_incr; lra).
  assert (Hc : 1.16 ^ 25 < 3 ^ 4) by (simpl pow; lra).
  lra.
Qed.

(** X18.  With [slow_wind_calc], a wind threshold of at least 3 km/h and a
    temperature at or below 0 ℃ (and within [max_temp_thresh] when
    [mask_invalid] is set), the wind chill of a wind that is not negative
    is a number, is never above the air temperature, and equals it in still
    air. *)
Theorem wind_chill_at_most_temperature :
  forall (tasx sfcWind : DataArray) (mask_invalid : bool)
         (max_temp_thresh min_wind_thresh : string) (i : nat) (t x : R),
    3 <= convert_quantity min_wind_thresh "km/h" ->
    nth_error (data (convert_units_to tasx "degC")) i = Some (Some t) ->
    nth_error (data (convert_units_to sfcWind "km/h")) i = Some (Some x) ->
    t <= 0 ->
    0 <= x ->
    (mask_invalid = true -> t <= convert_quantity max_temp_thresh "degC") ->
    exists w,
      nth_error
        (data (wind_chill_index convert_units_to convert_quantity tasx
                 sfcWind true mask_invalid max_temp_thresh min_wind_thresh))
        i = Some (Some w)
      /\ w <= t
      /\ (x = 0 -> w = t).
Proof.
  intros tasx sfcWind mask max_t min_w i t x Hm Ht Hx Ht0 Hx0 Hmax.
  set (m := convert_quantity min_w "km/h") in *.
  assert (Hcore : exists w,
    nth_error
      (where3 (map (fun x => flt x (Some m))
                   (data (convert_units_to sfcWind "km/h")))
         (map2 (fun t x =>
                  fadd t (fdiv (fmul x (fadd (Some (-1.59))
                                          (fmul (Some 0.1345) t)))
                               (Some 5)))
               (data (convert_units_to tasx "degC"))
               (data (convert_units_to sfcWind "km/h")))
         (map2 (fun t v =>
                  fadd (fsub (fadd (Some 13.12) (fmul (Some 0.6215) t))
                             (fmul (Some 11.37) v))
                       (fmul (fmul (Some 0.3965) t) v))
               (data (convert_units_to tasx "degC"))
               (map (fun x => fpow x 0.16)
                    (data (convert_units_to sfcWind "km/h"))))) i
    = Some (Some w) /\ w <= t /\ (x = 0 -> w = t)).
  { rewrite nth_error_where3, !nth_error_map2, !nth_error_map, Ht, Hx.
    cbn [option_map flt cmp]. unfold Rltb.
    destruct (Rlt_dec x m) as [Hlt | Hge].
    - unfold fpow. destruct (Rlt_dec 0 x) as [Hpos | Hnpos];
        [| destruct (Req_dec_T x 0) as [Hz | Hnz]; [| lra]]; cbn;
        eexists; (split; [reflexivity |]); split; try nra;
        intros ->; lra.
    - unfold fpow. destruct (Rlt_dec 0 x) as [Hpos | Hnpos]; [| lra].
      cbn. eexists. split; [reflexivity |].
      assert (HV : 1.16 <= Rpower x 0.16)
        by (apply Rpower_016_lower; lra).
      split; [nra | intros ->; lra]. }
  destruct Hcore as (w & Hw & Hle & Hstill).
  exists w. split; [| split; assumption].
  unfold wind_chill_index. cbn [data]. fold m.
  destruct mask.
  - rewrite nth_error_where_, Hw, nth_error_map, Ht. cbn.
    unfold Rleb. destruct (Rle_dec t (convert_quantity max_t "degC"))
      as [_ | Hn]; [reflexivity |].
    exfalso. apply Hn, Hmax. reflexivity.
  - exact Hw.
Qed.

End Units.

(** ** The theorems at sample arrays *)

(** A maximum of 300 K over a minimum of 290 K. *)
Lemma tas_between_extremes_witness :
  exists m,
    nth_error (data (tas same_units dtas_sample tas_sample)) 0 = Some m
    /\ exists r, m = Some r /\ Rmin 300 290 <= r <= Rmax 300 290.
Proof.
  exact (tas_between_extremes same_units dtas_sample tas_sample 0
           (Some 300) (Some 290) eq_refl eq_refl).
Defined.

(** Precipitation of 2 mm/d at 300 K, with the threshold at 273.15 K. *)
Lemma precipitation_is_all_snow_or_all_rain_witness :
  exists prsn prlp,
    snowfall_approximation freezing pr_sample tas_sample "0 degC" "binary"
    = Ok prsn
    /\ rain_approximation freezing pr_sample tas_sample "0 degC" "binary"
       = Ok prlp
    /\ nth_error (data prsn) 0
       = Some (if flt (Some 300) (Some (freezing "0 degC" (units tas_sample)))
               then Some 2 else Some 0)
    /\ nth_error (data prlp) 0
       = Some (if flt (Some 300) (Some (freezing "0 degC" (units tas_sample)))
               then Some 0 else Some 2).
Proof.
  exact (precipitation_is_all_snow_or_all_rain freezing pr_sample tas_sample
           "0 degC" 0 (Some 2) (Some 300) eq_refl eq_refl eq_refl).
Defined.

(** The label ["magnus"], which no dispatch knows. *)
Lemma unknown_method_is_rejected_by_callers_witness :
  (exists msg,
      rain_approximation freezing pr_sample tas_sample "0 degC" "magnus"
      = Raise (ValueError msg))
  /\ (exists msg,
      specific_humidity same_units freezing triple_point rh_sample ps_sample
        None "magnus" None
      = Raise (ValueError msg))
  /\ (exists msg,
      relative_humidity same_units freezing tas_sample (Some dtas_sample)
        None None None "magnus" None
      = Raise (ValueError msg)).
Proof.
  split; [| split].
  - pose proof (unknown_method_is_rejected_by_callers same_units freezing
                  pr_sample tas_sample rh_sample ps_sample dtas_sample
                  None None None None "0 degC" "magnus") as H.
    apply (proj1 H). reflexivity.
  - pose proof (unknown_method_is_rejected_by_callers same_units freezing
                  pr_sample triple_point rh_sample ps_sample dtas_sample
                  None None None None "0 degC" "magnus") as H.
    apply (proj1 (proj2 H)). reflexivity.
  - pose proof (unknown_method_is_rejected_by_callers same_units freezing
                  pr_sample tas_sample rh_sample ps_sample dtas_sample
                  None None None None "0 degC" "magnus") as H.
    apply (proj2 (proj2 H)); reflexivity.
Defined.

(** A wind of 10 m/s from the east. *)
Lemma wind_components_within_speed_witness :
  let uv := sfcwind_2_uas_vas same_units wind_sample dir_sample in
  exists u v,
    nth_error (data (fst uv)) 0 = Some u
    /\ nth_error (data (snd uv)) 0 = Some v
    /\ exists x y,
        u = Some x /\ v = Some y /\ Rabs x <= Rabs 10 /\ Rabs y <= Rabs 10.
Proof.
  exact (wind_components_within_speed same_units wind_sample dir_sample 0
           (Some 10) (Some 90) eq_refl eq_refl).
Defined.

(** A dew point of 290 K at a temperature of 300 K. *)
Lemma bohren98_within_0_100_witness :
  exists rh r,
    relative_humidity same_units freezing tas_sample (Some dtas_sample)
      None None None "bohren98" None = Ok rh
    /\ nth_error (data rh) 0 = Some (Some r)
    /\ 0 <= r <= 100.
Proof.
  apply (bohren98_within_0_100 same_units freezing tas_sample dtas_sample
           None None None 0%nat 300 290 eq_refl eq_refl).
  lra.
Defined.

(** Half-saturated air at the triple point, clipped. *)
Lemma specific_humidity_at_most_saturation_witness :
  exists out r,
    specific_humidity same_units freezing triple_point rh_sample ps_sample
      None "wmo08" (Some "clip"%string) = Ok out
    /\ nth_error (data out) 0 = Some (Some r)
    /\ exists e_sat e p s,
        saturation_vapor_pressure freezing (same_units triple_point "degK")
          None "wmo08" = Ok e_sat
        /\ nth_error (data e_sat) 0 = Some e
        /\ nth_error (data (same_units ps_sample "Pa")) 0 = Some p
        /\ mixing_to_specific (saturation_mixing_ratio e p) = Some s
        /\ r <= s /\ (0 <= s -> 0 <= r).
Proof.
  assert (H : { out : DataArray &
                { r : R |
                  specific_humidity same_units freezing triple_point
                    rh_sample ps_sample None "wmo08" (Some "clip"%string)
                  = Ok out
                  /\ nth_error (data out) 0 = Some (Some r) } }).
  { eexists. eexists. split; [reflexivity |].
    cbn. unfold fgt, flt, cmp, Rltb, freezing.
    settle_comparisons. reflexivity. }
  destruct H as (out & r & Hout & Hr).
  exists out, r. split; [exact Hout |]. split; [exact Hr |].
  exact (specific_humidity_at_most_saturation same_units freezing
           triple_point rh_sample ps_sample None "wmo08" "clip" out 0 r
           (or_introl eq_refl) Hout Hr).
Defined.

(** A wind of 2 km/h at -10 ℃, slow winds included. *)
Lemma wind_chill_masked_outside_validity_witness :
  exists w,
    nth_error
      (data (wind_chill_index same_units wind_chill_units cold_sample
               breeze_sample true true "0 degC" "5 km/h")) 0
    = Some (Some w)
    /\ exists t x,
        nth_error (data (same_units cold_sample "degC")) 0 = Some (Some t)
        /\ nth_error (data (same_units breeze_sample "km/h")) 0 = Some x
        /\ t <= wind_chill_units "0 degC" "degC"
        /\ (true = false ->
            exists v, x = Some v /\ wind_chill_units "5 km/h" "km/h" <= v).
Proof.
  assert (H : { w : R |
                nth_error
                  (data (wind_chill_index same_units wind_chill_units
                           cold_sample breeze_sample true true "0 degC"
                           "5 km/h")) 0
                = Some (Some w) }).
  { eexists. cbn. unfold flt, fle, cmp, Rltb, Rleb.
    settle_comparisons. reflexivity. }
  destruct H as [w Hw]. exists w. split; [exact Hw |].
  exact (wind_chill_masked_outside_validity same_units wind_chill_units
           cold_sample breeze_sample true "0 degC" "5 km/h" 0 w Hw).
Defined.

(** The same wind and temperature. *)
Lemma wind_chill_at_most_temperature_witness :
  exists w,
    nth_error
      (data (wind_chill_index same_units wind_chill_units cold_sample
               breeze_sample true true "0 degC" "5 km/h")) 0
    = Some (Some w)
    /\ w <= -10
    /\ (2 = 0 -> w = -10).
Proof.
  apply (wind_chill_at_most_temperature same_units wind_chill_units
           cold_sample breeze_sample true "0 degC" "5 km/h" 0 (-10) 2).
  - unfold wind_chill_units. simpl. lra.
  - reflexivity.
  - reflexivity.
  - lra.
  - lra.
  - intros _. unfold wind_chill_units. simpl. lra.
Defined.

End Conversion2Facts.
